(** * Opportunity classification pipeline (src/main.py)

    A shallow embedding of the batch classification pipeline of
    [main.py]: the rule-based [fallback_categorization], the item
    classifier [analyze_single_opportunity] and the batch scheduler
    [analyze_opportunities].

    Modelling conventions.
    - A Python [str] is the Rocq [string] of its UTF-8 bytes (a lone
      surrogate is written like any other code point).  Tests for
      an ASCII keyword or separator ([in], [split]) are the same on the
      bytes as on the code points.  [str.lower] and [str.strip] are
      computed on ASCII text, as CPython does on its ASCII path; on other
      text they are the library's Unicode functions, taken as the
      parameter [Unicode].
    - The dict [results] is a [gmap string OpportunityAnalysis].
    - Exceptions are values of [exn]; a computation that may raise has
      type [except A]; a computation that also talks to the outside world
      (the HTTP client, [asyncio.sleep]) has type [M A] and logs its
      interactions in a trace of [event]s.
    - Library code ([httpx], [json.loads], pydantic's field coercion) is
      not part of the repository and is taken as an environment [Env].
    - [print] calls are not modelled. *)

From Stdlib Require Import ZArith List String Ascii Bool Lia PrimFloat.
From stdpp Require Import gmap strings list fin_maps.

Open Scope string_scope.

(** ** Python string operations *)

Module PyStr.

(** All bytes are below 128: the text is ASCII. *)
Fixpoint is_ascii (s : string) : bool :=
  match s with
  | EmptyString => true
  | String c s' => (nat_of_ascii c <? 128)%nat && is_ascii s'
  end.

(** [str.lower] on one ASCII character: A..Z are moved to a..z. *)
Definition lower_ascii (c : ascii) : ascii :=
  let n := nat_of_ascii c in
  if (65 <=? n)%nat && (n <=? 90)%nat then ascii_of_nat (n + 32) else c.

(** [str.lower] on ASCII text. *)
Fixpoint ascii_lower (s : string) : string :=
  match s with
  | EmptyString => EmptyString
  | String c s' => String (lower_ascii c) (ascii_lower s')
  end.

(** [s.startswith(p)]. *)
Fixpoint startswith (p s : string) : bool :=
  match p, s with
  | EmptyString, _ => true
  | String _ _, EmptyString => false
  | String a p', String b s' => if Ascii.eqb a b then startswith p' s' else false
  end.

(** [kw in s] on strings: [kw] occurs somewhere in [s]. *)
Fixpoint str_in (kw s : string) : bool :=
  startswith kw s ||
  match s with
  | EmptyString => false
  | String _ s' => str_in kw s'
  end.

(** [o or d] where [o] is an [Optional[str]]: [None] and the empty string
    are falsy. *)
Definition str_or (o : option string) (d : string) : string :=
  match o with
  | None => d
  | Some EmptyString => d
  | Some s => s
  end.

(** The ASCII characters [str.strip] removes: tab to carriage return,
    the four separators 28-31, and the space. *)
Definition is_space (c : ascii) : bool :=
  let n := nat_of_ascii c in
  ((9 <=? n)%nat && (n <=? 13)%nat) || ((28 <=? n)%nat && (n <=? 32)%nat).

Fixpoint ascii_lstrip (s : string) : string :=
  match s with
  | EmptyString => EmptyString
  | String c s' => if is_space c then ascii_lstrip s' else s
  end.

Fixpoint ascii_rstrip (s : string) : string :=
  match s with
  | EmptyString => EmptyString
  | String c s' =>
      match ascii_rstrip s' with
      | EmptyString => if is_space c then EmptyString else String c EmptyString
      | r => String c r
      end
  end.

(** [str.strip] on ASCII text. *)
Definition ascii_strip (s : string) : string := ascii_rstrip (ascii_lstrip s).

(** The library's case mapping and white-space stripping on text that is
    not ASCII: Unicode data, not code of this repository. *)
Record Unicode := {
  unicode_lower : string -> string;
  unicode_strip : string -> string
}.

(** [s.lower()]. *)
Definition lower (u : Unicode) (s : string) : string :=
  if is_ascii s then ascii_lower s else unicode_lower u s.

(** [s.strip()]. *)
Definition strip (u : Unicode) (s : string) : string :=
  if is_ascii s then ascii_strip s else unicode_strip u s.

(** The number of bytes of the character that starts with byte [c]. *)
Definition utf8_width (c : ascii) : nat :=
  let n := nat_of_ascii c in
  if (n <? 192)%nat then 1 else if (n <? 224)%nat then 2
  else if (n <? 240)%nat then 3 else 4.

Fixpoint take_bytes (n : nat) (s : string) : string :=
  match n, s with
  | S n', String c s' => String c (take_bytes n' s')
  | _, _ => EmptyString
  end.

(** [s[0]] for a non-empty [s]: its first character. *)
Definition first_char (s : string) : string :=
  match s with
  | EmptyString => EmptyString
  | String c _ => take_bytes (utf8_width c) s
  end.

(** [sep.join(l)]. *)
Fixpoint join (sep : string) (l : list string) : string :=
  match l with
  | [] => ""
  | [x] => x
  | x :: l' => x +:+ sep +:+ join sep l'
  end.

(** The specification of substring containment, independent of the
    scanning function [str_in]. *)
Definition substring (kw s : string) : Prop :=
  exists pre suf : string, s = pre +:+ kw +:+ suf.

End PyStr.
Import PyStr.

(** ** Data model (lines 37-70) *)

Definition OPPORTUNITY_TYPES : list string :=
  [ "Security Assessment";
    "Cloud Security";
    "Endpoint Security";
    "SIEM/SOC";
    "Identity Management";
    "Network Security";
    "Data Protection";
    "Vulnerability Management";
    "Compliance & Audit";
    "Incident Response";
    "Security Training";
    "Mainframe Security" ].

Record OpportunityForAnalysis := {
  id : string;
  opportunityName : string;
  description : string;
  onHoldReason : option string
}.

Record OpportunityAnalysis := {
  type : string;
  confidence : Z;
  reasoning : string
}.

Record AnalysisRequest := {
  opportunities : list OpportunityForAnalysis
}.

Record AnalysisResponse := {
  results : gmap string OpportunityAnalysis;
  processed_count : Z;
  timestamp : string
}.

(** ** The fallback classifier (lines 164-245) *)

(** Line 166: the f-string joined with single spaces, lower-cased. *)
Definition search_text (u : Unicode) (opportunity : OpportunityForAnalysis) : string :=
  lower u (opportunityName opportunity +:+ " " +:+ description opportunity
         +:+ " " +:+ str_or (onHoldReason opportunity) "").

Definition fallback_categorization (u : Unicode)
    (opportunity : OpportunityForAnalysis) : OpportunityAnalysis :=
  let search_text := search_text u opportunity in
  if str_in "assessment" search_text || str_in "audit" search_text
     || str_in "evaluation" search_text then
    {| type := "Security Assessment"; confidence := 70;
       reasoning := "Contains assessment/audit keywords" |}
  else if str_in "cloud" search_text || str_in "aws" search_text
     || str_in "azure" search_text || str_in "gcp" search_text then
    {| type := "Cloud Security"; confidence := 75;
       reasoning := "Contains cloud platform keywords" |}
  else if str_in "endpoint" search_text || str_in "antivirus" search_text
     || str_in "malware" search_text then
    {| type := "Endpoint Security"; confidence := 75;
       reasoning := "Contains endpoint security keywords" |}
  else if str_in "siem" search_text || str_in "soc" search_text
     || str_in "monitoring" search_text then
    {| type := "SIEM/SOC"; confidence := 80;
       reasoning := "Contains SIEM/SOC keywords" |}
  else if str_in "identity" search_text || str_in "access" search_text
     || str_in "mfa" search_text || str_in "authentication" search_text then
    {| type := "Identity Management"; confidence := 75;
       reasoning := "Contains identity management keywords" |}
  else if str_in "firewall" search_text || str_in "network" search_text
     || str_in "perimeter" search_text then
    {| type := "Network Security"; confidence := 75;
       reasoning := "Contains network security keywords" |}
  else if str_in "data" search_text || str_in "encryption" search_text
     || str_in "backup" search_text || str_in "protection" search_text then
    {| type := "Data Protection"; confidence := 75;
       reasoning := "Contains data protection keywords" |}
  else if str_in "vulnerability" search_text || str_in "scanning" search_text
     || str_in "penetration" search_text then
    {| type := "Vulnerability Management"; confidence := 75;
       reasoning := "Contains vulnerability management keywords" |}
  else if str_in "compliance" search_text || str_in "regulatory" search_text
     || str_in "gdpr" search_text || str_in "hipaa" search_text then
    {| type := "Compliance & Audit"; confidence := 75;
       reasoning := "Contains compliance keywords" |}
  else if str_in "incident" search_text || str_in "response" search_text
     || str_in "forensics" search_text then
    {| type := "Incident Response"; confidence := 75;
       reasoning := "Contains incident response keywords" |}
  else if str_in "training" search_text || str_in "awareness" search_text
     || str_in "phishing" search_text then
    {| type := "Security Training"; confidence := 75;
       reasoning := "Contains security training keywords" |}
  else if str_in "mainframe" search_text || str_in "legacy" search_text
     || str_in "z/os" search_text then
    {| type := "Mainframe Security"; confidence := 80;
       reasoning := "Contains mainframe keywords" |}
  else
    {| type := "Security Assessment"; confidence := 40;
       reasoning := "Default fallback categorization" |}.

(** The same chain read as a priority table: keyword group and the
    result of the branch, in source order.  [fallback_rules_correct]
    below shows that [fallback_categorization] is the first match in this
    table. *)
Definition fallback_rules : list (list string * OpportunityAnalysis) :=
  [ (["assessment"; "audit"; "evaluation"],
     {| type := "Security Assessment"; confidence := 70;
        reasoning := "Contains assessment/audit keywords" |});
    (["cloud"; "aws"; "azure"; "gcp"],
     {| type := "Cloud Security"; confidence := 75;
        reasoning := "Contains cloud platform keywords" |});
    (["endpoint"; "antivirus"; "malware"],
     {| type := "Endpoint Security"; confidence := 75;
        reasoning := "Contains endpoint security keywords" |});
    (["siem"; "soc"; "monitoring"],
     {| type := "SIEM/SOC"; confidence := 80;
        reasoning := "Contains SIEM/SOC keywords" |});
    (["identity"; "access"; "mfa"; "authentication"],
     {| type := "Identity Management"; confidence := 75;
        reasoning := "Contains identity management keywords" |});
    (["firewall"; "network"; "perimeter"],
     {| type := "Network Security"; confidence := 75;
        reasoning := "Contains network security keywords" |});
    (["data"; "encryption"; "backup"; "protection"],
     {| type := "Data Protection"; confidence := 75;
        reasoning := "Contains data protection keywords" |});
    (["vulnerability"; "scanning"; "penetration"],
     {| type := "Vulnerability Management"; confidence := 75;
        reasoning := "Contains vulnerability management keywords" |});
    (["compliance"; "regulatory"; "gdpr"; "hipaa"],
     {| type := "Compliance & Audit"; confidence := 75;
        reasoning := "Contains compliance keywords" |});
    (["incident"; "response"; "forensics"],
     {| type := "Incident Response"; confidence := 75;
        reasoning := "Contains incident response keywords" |});
    (["training"; "awareness"; "phishing"],
     {| type := "Security Training"; confidence := 75;
        reasoning := "Contains security training keywords" |});
    (["mainframe"; "legacy"; "z/os"],
     {| type := "Mainframe Security"; confidence := 80;
        reasoning := "Contains mainframe keywords" |}) ].

Definition fallback_default : OpportunityAnalysis :=
  {| type := "Security Assessment"; confidence := 40;
     reasoning := "Default fallback categorization" |}.

Fixpoint first_match (rules : list (list string * OpportunityAnalysis))
    (text : string) : OpportunityAnalysis :=
  match rules with
  | [] => fallback_default
  | (kws, res) :: rules' =>
      if existsb (fun kw => str_in kw text) kws then res
      else first_match rules' text
  end.

(** ** Exceptions, effects and the environment *)

(** The exception classes that can arise in the [try] block of
    [analyze_single_opportunity].  All of them derive from Python's
    [Exception]; signals that do not (task cancellation, interpreter
    exit) are outside this model. *)
Inductive exn :=
| HTTPException (status : Z) (detail : string)
| ValueError
| JSONDecodeError
| AttributeError
| IndexError
| KeyError
| TypeError
| ValidationError
| TimeoutException
| TransportError.

Inductive except (A : Type) :=
| Raise (e : exn)
| Return (a : A).
Arguments Raise {A} e.
Arguments Return {A} a.

(** Interactions with the outside world, in the order they happen. *)
Inductive event :=
| EvPost (prompt : string)
| EvSleep (seconds : Z).

Definition M (A : Type) : Type := (except A * list event)%type.

Definition ret {A} (a : A) : M A := (Return a, []).
Definition raise {A} (e : exn) : M A := (Raise e, []).
Definition lift {A} (x : except A) : M A := (x, []).

Definition bind {A B} (m : M A) (k : A -> M B) : M B :=
  match m with
  | (Raise e, t) => (Raise e, t)
  | (Return a, t) => let (r, t') := k a in (r, (t ++ t')%list)
  end.

(** [try: body except Exception as error: handler error]. *)
Definition try_except {A} (body : M A) (handler : exn -> M A) : M A :=
  match body with
  | (Raise e, t) => let (r, t') := handler e in (r, (t ++ t')%list)
  | (Return a, t) => (Return a, t)
  end.

Notation "x <- m ;; k" := (bind m (fun x => k))
  (at level 100, m at next level, right associativity).

(** A decoded JSON document, as [json.loads] and [response.json()]
    return it.  A dict is kept as its list of items; lookups take the
    first binding of a key. *)
#[local] Unset Elimination Schemes.
Inductive json :=
| JNull
| JBool (b : bool)
| JInt (n : Z)
| JFloat (f : float)
| JStr (s : string)
| JArr (items : list json)
| JObj (items : list (string * json)).
#[local] Set Elimination Schemes.

(** What [analysis_data] is bound to at line 155: the decoded dict, or,
    after line 153, an [OpportunityAnalysis] instance. *)
Inductive py_value :=
| PyJson (j : json)
| PyModel (a : OpportunityAnalysis).

(** The [httpx] response object, by what the code reads from it. *)
Record response := {
  status_code : Z;
  text : string;
  json_body : except json   (* the outcome of [response.json()] *)
}.

Record Env := {
  (* the string library *)
  unicode : Unicode;
  (* [client.post(...)] for a prompt; [Raise] on timeout or transport error *)
  client_post : string -> except response;
  (* [json.loads] *)
  json_loads : string -> except json;
  (* pydantic's handling of a non-int value given for an [int] field *)
  coerce_int : json -> except Z;
  (* pydantic's handling of a non-str value given for a [str] field *)
  coerce_str : json -> except string
}.

Definition post (env : Env) (prompt : string) : M response :=
  (client_post env prompt, [EvPost prompt]).

Definition sleep (seconds : Z) : M unit := (Return tt, [EvSleep seconds]).

(** ** Python operations on decoded JSON *)

Fixpoint assoc (key : string) (items : list (string * json)) : option json :=
  match items with
  | [] => None
  | (k, v) :: items' => if String.eqb key k then Some v else assoc key items'
  end.

(** [d.get(key, default)]. *)
Definition dict_get (d : json) (key : string) (default : json) : except json :=
  match d with
  | JObj items =>
      Return (match assoc key items with Some v => v | None => default end)
  | _ => Raise AttributeError
  end.

(** [v[0]]. *)
Definition getitem0 (v : json) : except json :=
  match v with
  | JArr (x :: _) => Return x
  | JArr [] => Raise IndexError
  | JStr (String c s) => Return (JStr (first_char (String c s)))
  | JStr EmptyString => Raise IndexError
  | JObj _ => Raise KeyError
  | _ => Raise TypeError
  end.

(** [bool(v)]. *)
Definition truthy (v : json) : bool :=
  match v with
  | JNull => false
  | JBool b => b
  | JInt n => negb (n =? 0)%Z
  | JFloat f => negb (PrimFloat.eqb f 0%float)
  | JStr s => negb (String.eqb s "")
  | JArr items => match items with [] => false | _ => true end
  | JObj items => match items with [] => false | _ => true end
  end.

(** [v.strip()]. *)
Definition str_strip (u : Unicode) (v : json) : except string :=
  match v with
  | JStr s => Return (strip u s)
  | _ => Raise AttributeError
  end.

(** [v in OPPORTUNITY_TYPES]: only a string can equal a list element. *)
Definition in_opportunity_types (v : json) : bool :=
  match v with
  | JStr s => existsb (String.eqb s) OPPORTUNITY_TYPES
  | _ => false
  end.

(** pydantic validation of one field: a value of the declared type is
    kept, anything else is left to the library's coercion. *)
Definition validate_str (env : Env) (v : json) : except string :=
  match v with
  | JStr s => Return s
  | _ => coerce_str env v
  end.

Definition validate_int (env : Env) (v : json) : except Z :=
  match v with
  | JInt n => Return n
  | _ => coerce_int env v
  end.

Definition except_bind {A B} (x : except A) (k : A -> except B) : except B :=
  match x with
  | Raise e => Raise e
  | Return a => k a
  end.

(** Line 155, the constructor call with [analysis_data] unpacked as
    keyword arguments: a model instance is not a mapping, so unpacking it
    raises [TypeError]; for a dict every field is required and validated,
    extra keys are ignored. *)
Definition construct_OpportunityAnalysis (env : Env) (analysis_data : py_value)
  : except OpportunityAnalysis :=
  match analysis_data with
  | PyModel _ => Raise TypeError
  | PyJson (JObj items) =>
      match assoc "type" items, assoc "confidence" items, assoc "reasoning" items with
      | Some t, Some c, Some r =>
          except_bind (validate_str env t) (fun t' =>
          except_bind (validate_int env c) (fun c' =>
          except_bind (validate_str env r) (fun r' =>
          Return {| type := t'; confidence := c'; reasoning := r' |})))
      | _, _, _ => Raise ValidationError
      end
  | PyJson _ => Raise TypeError
  end.

(** ** The item classifier (lines 72-162) *)

Definition dq : string := String (ascii_of_nat 34) "".

(** Lines 78-110. *)
Definition build_prompt (opportunity : OpportunityForAnalysis) : string :=
  "
You are a cybersecurity expert analyzing business opportunities. Based on the information provided, determine the most appropriate security opportunity type.

Available Types: " +:+ join ", " OPPORTUNITY_TYPES +:+ "

Opportunity Information:
- Name: " +:+ dq +:+ opportunityName opportunity +:+ dq +:+ "
- Description: " +:+ dq +:+ description opportunity +:+ dq +:+ "
- On Hold Reason: " +:+ dq +:+ str_or (onHoldReason opportunity) "N/A" +:+ dq +:+ "

Please analyze this opportunity and respond with a JSON object containing:
{
  " +:+ dq +:+ "type" +:+ dq +:+ ": " +:+ dq +:+ "one of the available types that best matches" +:+ dq +:+ ",
  " +:+ dq +:+ "confidence" +:+ dq +:+ ": " +:+ dq +:+ "number between 0-100 indicating confidence level" +:+ dq +:+ ",
  " +:+ dq +:+ "reasoning" +:+ dq +:+ ": " +:+ dq +:+ "brief explanation of why this type was chosen" +:+ dq +:+ "
}

Focus on identifying key security domains, technologies, and services mentioned. Consider:
- Security assessments and audits
- Cloud security implementations
- Endpoint protection and management
- SIEM, SOC, and monitoring services
- Identity and access management
- Network security and firewalls
- Data protection and encryption
- Vulnerability scanning and management
- Compliance requirements
- Incident response capabilities
- Security training and awareness
- Mainframe and legacy system security

Respond only with the JSON object, no additional text.
".

(** Lines 141-142: [response.json()] and the chain of [get]s down to the
    generated text. *)
Definition extract_content (response : response) : except json :=
  except_bind (json_body response) (fun data =>
  except_bind (dict_get data "choices" (JArr [JObj []])) (fun choices =>
  except_bind (getitem0 choices) (fun choice =>
  except_bind (dict_get choice "message" (JObj [])) (fun message =>
  dict_get message "content" (JStr ""))))).

(** Lines 138-156: what follows the [await client.post(...)] inside the
    [try] block. *)
Definition handle_response (env : Env) (opportunity : OpportunityForAnalysis)
    (response : response) : except (string * OpportunityAnalysis) :=
  if negb (status_code response =? 200)%Z then
    Raise (HTTPException (status_code response)
             ("Azure OpenAI API error: " +:+ text response))
  else
    except_bind (extract_content response) (fun content =>
    if negb (truthy content) then Raise ValueError
    else
      except_bind (str_strip (unicode env) content) (fun stripped =>
      except_bind (json_loads env stripped) (fun analysis_data =>
      except_bind (dict_get analysis_data "type" JNull) (fun ty =>
      let analysis_data :=
        if negb (in_opportunity_types ty)
        then PyModel (fallback_categorization (unicode env) opportunity)
        else PyJson analysis_data in
      except_bind (construct_OpportunityAnalysis env analysis_data) (fun analysis =>
      Return (id opportunity, analysis)))))).

Definition analyze_single_opportunity (env : Env)
    (opportunity : OpportunityForAnalysis) : M (string * OpportunityAnalysis) :=
  let prompt := build_prompt opportunity in
  try_except
    (response <- post env prompt ;;
     lift (handle_response env opportunity response))
    (fun error =>
       let analysis := fallback_categorization (unicode env) opportunity in
       ret (id opportunity, analysis)).

(** ** The batch scheduler (lines 255-291) *)

(** [range(start, stop, step)] for a positive step. *)
Definition py_range (start stop step : nat) : list nat :=
  map (fun k => start + k * step) (seq 0 ((stop - start + step - 1) / step)).

(** [l[i:j]]; out-of-range bounds are clipped, as Python does. *)
Definition py_slice {A} (l : list A) (i j : nat) : list A :=
  take (j - i) (drop i l).

(** [asyncio.gather] with [return_exceptions=True]: every task runs to
    its end, the outcomes come back in task order, and an exception is an
    outcome like any other.  The interactions of the tasks of one call
    are logged in task order. *)
Definition settle {A} (task : M A) : M (except A) :=
  (Return (fst task), snd task).

Fixpoint gather {A} (tasks : list (M A)) : M (list (except A)) :=
  match tasks with
  | [] => ret []
  | task :: tasks' =>
      result <- settle task ;;
      batch_results <- gather tasks' ;;
      ret (result :: batch_results)
  end.

(** A [for] loop that threads its state. *)
Fixpoint for_each {S I} (body : S -> I -> M S) (s : S) (l : list I) : M S :=
  match l with
  | [] => ret s
  | i :: l' => s' <- body s i ;; for_each body s' l'
  end.

(** Lines 275-281. *)
Definition collect (results : gmap string OpportunityAnalysis)
    (batch_results : list (except (string * OpportunityAnalysis)))
  : gmap string OpportunityAnalysis :=
  foldl (fun results result =>
           match result with
           | Raise _ => results
           | Return (opp_id, analysis) => <[opp_id := analysis]> results
           end) results batch_results.

Definition batch_size : nat := 5.

(** Lines 269-285: one iteration of the loop over [i]. *)
Definition process_batch (env : Env) (opps : list OpportunityForAnalysis)
    (results : gmap string OpportunityAnalysis) (i : nat)
  : M (gmap string OpportunityAnalysis) :=
  let batch := py_slice opps i (i + batch_size) in
  let tasks := map (analyze_single_opportunity env) batch in
  batch_results <- gather tasks ;;
  let results := collect results batch_results in
  u <- (if (i + batch_size <? length opps)%nat then sleep 1 else ret tt) ;;
  ret results.

(** [now] is the reading of [datetime.now().isoformat()] at line 290. *)
Definition analyze_opportunities (env : Env) (now : string)
    (request : AnalysisRequest) : M AnalysisResponse :=
  match opportunities request with
  | [] => raise (HTTPException 400 "No opportunities provided for analysis")
  | _ :: _ =>
      let opps := opportunities request in
      results <- for_each (process_batch env opps) ∅
                   (py_range 0 (length opps) batch_size) ;;
      ret {| results := results;
             processed_count := Z.of_nat (size results);
             timestamp := now |}
  end.

(** ** Vocabulary for the statements *)

(** Some keyword of the group occurs in the text. *)
Definition matches (kws : list string) (text : string) : Prop :=
  exists kw, In kw kws /\ substring kw text.

(** The ways in which the external call fails or its output is invalid,
    stated on the environment's answers. *)
Inductive service_failure (env : Env) (opportunity : OpportunityForAnalysis) : Prop :=
| call_failed e :
    (* timeout, transport error *)
    client_post env (build_prompt opportunity) = Raise e ->
    service_failure env opportunity
| bad_status r :
    client_post env (build_prompt opportunity) = Return r ->
    status_code r <> 200%Z ->
    service_failure env opportunity
| bad_body r e :
    (* the body is not JSON, or not of the expected shape *)
    client_post env (build_prompt opportunity) = Return r ->
    extract_content r = Raise e ->
    service_failure env opportunity
| empty_content r content :
    client_post env (build_prompt opportunity) = Return r ->
    extract_content r = Return content ->
    truthy content = false ->
    service_failure env opportunity
| content_not_text r content e :
    client_post env (build_prompt opportunity) = Return r ->
    extract_content r = Return content ->
    str_strip (unicode env) content = Raise e ->
    service_failure env opportunity
| unparseable_text r s e :
    client_post env (build_prompt opportunity) = Return r ->
    extract_content r = Return (JStr s) ->
    json_loads env (strip (unicode env) s) = Raise e ->
    service_failure env opportunity
| not_an_object r s d e :
    client_post env (build_prompt opportunity) = Return r ->
    extract_content r = Return (JStr s) ->
    json_loads env (strip (unicode env) s) = Return d ->
    dict_get d "type" JNull = Raise e ->
    service_failure env opportunity
| missing_field r s items field :
    client_post env (build_prompt opportunity) = Return r ->
    extract_content r = Return (JStr s) ->
    json_loads env (strip (unicode env) s) = Return (JObj items) ->
    In field ["type"; "confidence"; "reasoning"] ->
    assoc field items = None ->
    service_failure env opportunity
| type_not_in_taxonomy r s d ty :
    client_post env (build_prompt opportunity) = Return r ->
    extract_content r = Return (JStr s) ->
    json_loads env (strip (unicode env) s) = Return d ->
    dict_get d "type" JNull = Return ty ->
    in_opportunity_types ty = false ->
    service_failure env opportunity
| field_rejected r s d e :
    (* pydantic rejects the value of a field *)
    client_post env (build_prompt opportunity) = Return r ->
    extract_content r = Return (JStr s) ->
    json_loads env (strip (unicode env) s) = Return d ->
    construct_OpportunityAnalysis env (PyJson d) = Raise e ->
    service_failure env opportunity.

(** The classification an item ends up with. *)
Definition analysis_of (env : Env) (opportunity : OpportunityForAnalysis)
  : OpportunityAnalysis :=
  match fst (analyze_single_opportunity env opportunity) with
  | Return (_, analysis) => analysis
  | Raise _ => fallback_categorization (unicode env) opportunity
  end.

(** The groups the loop of [analyze_opportunities] works on, one per
    value of [i]. *)
Definition chunks (opps : list OpportunityForAnalysis)
  : list (list OpportunityForAnalysis) :=
  map (fun i => py_slice opps i (i + batch_size))
      (py_range 0 (length opps) batch_size).

(** The external calls of one group. *)
Definition posts (batch : list OpportunityForAnalysis) : list event :=
  map (fun opp => EvPost (build_prompt opp)) batch.

(** The pacing the specification describes: the groups' interactions with
    one pause of one unit between consecutive groups and none after the
    last. *)
Fixpoint paced (groups : list (list event)) : list event :=
  match groups with
  | [] => []
  | [g] => g
  | g :: groups' => (g ++ EvSleep 1 :: paced groups')%list
  end.

Definition is_sleep (e : event) : bool :=
  match e with
  | EvSleep _ => true
  | EvPost _ => false
  end.

Definition count_sleeps (t : list event) : nat :=
  length (List.filter is_sleep t).

(** What one iteration of the loop logs: the calls of its group, then the
    pause of line 285 when line 284 lets it through. *)
Definition batch_trace (opps : list OpportunityForAnalysis) (i : nat) : list event :=
  (posts (py_slice opps i (i + batch_size))
   ++ (if (i + batch_size <? length opps)%nat then [EvSleep 1] else []))%list.

(** Line 281 for one item. *)
Definition record_result (env : Env) (results : gmap string OpportunityAnalysis)
    (opp : OpportunityForAnalysis) : gmap string OpportunityAnalysis :=
  <[id opp := analysis_of env opp]> results.

(** The three text fields of an item are ASCII. *)
Definition ascii_item (o : OpportunityForAnalysis) : bool :=
  is_ascii (opportunityName o) && is_ascii (description o)
  && is_ascii (str_or (onHoldReason o) "").

(** ** Sample inputs and environments *)

Module Samples.

Definition opp (i n d : string) (r : option string) : OpportunityForAnalysis :=
  {| id := i; opportunityName := n; description := d; onHoldReason := r |}.

(** End-to-end scenario 1 of the specification. *)
Definition cloud_review : OpportunityForAnalysis :=
  opp "006A1" "Cloud migration security review" "AWS workload assessment" None.

Definition associates : OpportunityForAnalysis :=
  opp "006A2" "Partner Associates onboarding" "Kick-off call" None.

Definition database : OpportunityForAnalysis :=
  opp "006A3" "Database refresh" "Quarterly" (Some "Budget").

(** The sample texts below are ASCII, where [lower] and [strip] do not
    consult the library; this instance only fills the parameter. *)
Definition ascii_only : Unicode :=
  {| unicode_lower := ascii_lower; unicode_strip := ascii_strip |}.

(** U+212A KELVIN SIGN and U+00A0 NO-BREAK SPACE in UTF-8. *)
Definition kelvin_sign : string :=
  String (ascii_of_nat 226) (String (ascii_of_nat 132) (String (ascii_of_nat 170) "")).

Definition no_break_space : string :=
  String (ascii_of_nat 194) (String (ascii_of_nat 160) "").

(** A service that always times out. *)
Definition env_timeout : Env :=
  {| unicode := ascii_only;
     client_post := fun _ => Raise TimeoutException;
     json_loads := fun _ => Raise JSONDecodeError;
     coerce_int := fun _ => Raise ValidationError;
     coerce_str := fun _ => Raise ValidationError |}.

Definition quoted (s : string) : string := dq +:+ s +:+ dq.

(** The text of a JSON object with the three fields, as the service is
    asked to write it; [conf] is the confidence as it is written. *)
Definition answer_text (ty conf why : string) : string :=
  "{" +:+ quoted "type" +:+ ": " +:+ quoted ty +:+ ", "
  +:+ quoted "confidence" +:+ ": " +:+ conf +:+ ", "
  +:+ quoted "reasoning" +:+ ": " +:+ quoted why +:+ "}".

Definition answer (ty : string) (conf : Z) (why : string) : json :=
  JObj [("type", JStr ty); ("confidence", JInt conf); ("reasoning", JStr why)].

(** The chat-completions body that carries a generated text. *)
Definition completion (content : string) : json :=
  JObj [("choices", JArr [JObj [("message", JObj [("content", JStr content)])]])].

(** A service that answers every prompt with the given status and
    generated text; [json_loads] decodes that one text to [decoded] and
    rejects every other. *)
Definition env_answering (status : Z) (content : string) (decoded : json) : Env :=
  {| unicode := ascii_only;
     client_post := fun _ =>
       Return {| status_code := status; text := "";
                 json_body := Return (completion content) |};
     json_loads := fun s =>
       if String.eqb s content then Return decoded else Raise JSONDecodeError;
     coerce_int := fun _ => Raise ValidationError;
     coerce_str := fun _ => Raise ValidationError |}.

(** A valid type with confidence 150. *)
Definition env_150 : Env :=
  env_answering 200 (answer_text "Cloud Security" "150" "sure")
                (answer "Cloud Security" 150 "sure").

(** A type outside the taxonomy. *)
Definition env_bad_type : Env :=
  env_answering 200 (answer_text "Ransomware" "90" "sure")
                (answer "Ransomware" 90 "sure").

(** The service is down. *)
Definition env_500 : Env :=
  env_answering 500 "" JNull.

End Samples.

(** ** Configuration (line 18) *)

(** [s.split(sep)] for a separator of one character: the pieces between
    the occurrences of the separator, empty pieces included. *)
Fixpoint split_on (sep : ascii) (s : string) : list string :=
  match s with
  | EmptyString => [EmptyString]
  | String c s' =>
      if Ascii.eqb c sep then EmptyString :: split_on sep s'
      else match split_on sep s' with
           | [] => [String c EmptyString]
           | piece :: pieces => String c piece :: pieces
           end
  end.

(** [os.getenv(name, default)] where [value] is the variable's setting,
    [None] when it is unset. *)
Definition getenv (value : option string) (default : string) : string :=
  match value with
  | Some v => v
  | None => default
  end.

(** Line 18; the argument is the setting of [ALLOWED_ORIGINS]. *)
Definition allowed_origins (setting : option string) : list string :=
  split_on "," (getenv setting "http://localhost:5173").


(** The items of a batch that carry a given id, in input order. *)
Definition with_id (k : string) (opps : list OpportunityForAnalysis)
  : list OpportunityForAnalysis :=
  List.filter (fun o => String.eqb (id o) k) opps.

(** ** Facts about the string operations *)

Lemma startswith_spec p s :
  startswith p s = true <-> exists suf, s = p +:+ suf.
Proof.
  revert s. induction p as [|a p IH]; intros s; simpl.
  - split; [intros _; by exists s | done].
  - destruct s as [|b s]; simpl.
    + split; [done | intros [suf H]; discriminate].
    + destruct (Ascii.eqb_spec a b) as [->|Hne].
      * rewrite IH. split; intros [suf H]; exists suf; [by rewrite H | by injection H].
      * split; [done | intros [suf H]; injection H; congruence].
Qed.

Lemma str_in_spec kw s : str_in kw s = true <-> substring kw s.
Proof.
  unfold substring. induction s as [|c s IH]; simpl.
  - rewrite orb_false_r, startswith_spec. split.
    + intros [suf H]. by exists "", suf.
    + intros [pre [suf H]]. destruct pre; simpl in H; [by exists suf | discriminate].
  - rewrite orb_true_iff, startswith_spec, IH. split.
    + intros [[suf H] | [pre [suf H]]].
      * by exists "", suf.
      * exists (String c pre), suf. simpl. by rewrite H.
    + intros [pre [suf H]]. destruct pre as [|c' pre]; simpl in H.
      * left. by exists suf.
      * right. exists pre, suf. by injection H.
Qed.

Lemma str_in_false kw s : str_in kw s = false <-> ~ substring kw s.
Proof.
  rewrite <- str_in_spec. destruct (str_in kw s); split; done.
Qed.

Lemma fallback_rules_correct u opportunity :
  fallback_categorization u opportunity
  = first_match fallback_rules (search_text u opportunity).
Proof.
  unfold fallback_categorization, fallback_rules, first_match, existsb, fallback_default.
  rewrite ?orb_false_r, ?orb_assoc. reflexivity.
Qed.

Lemma existsb_str_in kws text :
  existsb (fun kw => str_in kw text) kws = true <-> matches kws text.
Proof.
  unfold matches. rewrite existsb_exists.
  split; intros [kw [Hin H]]; exists kw; split; try done; by apply str_in_spec.
Qed.

(** The first rule of a table whose group matches decides the result. *)
Lemma first_match_priority rules text n kws res :
  rules !! n = Some (kws, res) ->
  matches kws text ->
  (forall m kws' res', m < n -> rules !! m = Some (kws', res') -> ~ matches kws' text) ->
  first_match rules text = res.
Proof.
  revert n. induction rules as [|[kws0 res0] rules IH]; intros n Hn Hm Hearlier.
  - done.
  - simpl. destruct n as [|n]; simpl in Hn.
    + injection Hn as -> ->.
      apply existsb_str_in in Hm. by rewrite Hm.
    + destruct (existsb _ kws0) eqn:E.
      * apply existsb_str_in in E. by destruct (Hearlier 0 kws0 res0); [lia | |].
      * apply (IH n); [done | done |].
        intros m kws' res' Hlt Hl. apply (Hearlier (S m) kws' res'); [lia | done].
Qed.

Lemma first_match_default rules text :
  (forall kws res, In (kws, res) rules -> ~ matches kws text) ->
  first_match rules text = fallback_default.
Proof.
  induction rules as [|[kws0 res0] rules IH]; intros H; simpl; [done |].
  destruct (existsb _ kws0) eqn:E.
  - apply existsb_str_in in E. destruct (H kws0 res0); [by left | done].
  - apply IH. intros kws res Hin. apply (H kws res). by right.
Qed.

(** Every entry of the table, and the default, is a legal result. *)
Lemma first_match_in_table rules text :
  first_match rules text = fallback_default \/
  exists kws, In (kws, first_match rules text) rules.
Proof.
  induction rules as [|[kws0 res0] rules IH]; simpl; [by left |].
  destruct (existsb _ kws0).
  - right. exists kws0. by left.
  - destruct IH as [->|[kws H]]; [by left |]. right. exists kws. by right.
Qed.

(** C3: the keyword rules are tried in the fixed order of the table and
    the first one that matches decides: whichever rule [n] has a keyword
    in the search text while no earlier rule has one gives the result,
    and the default is returned when no rule has one.  In particular an
    input whose search text has a keyword of rule 1 (assessment, audit,
    evaluation) and a keyword of rule 2 (cloud, aws, azure, gcp) is
    classified "Security Assessment" with confidence 70, not "Cloud
    Security". *)
Theorem fallback_rule1_before_rule2 (u : Unicode) (opportunity : OpportunityForAnalysis) :
  (forall n kws res,
     fallback_rules !! n = Some (kws, res) ->
     matches kws (search_text u opportunity) ->
     (forall m kws' res',
        m < n -> fallback_rules !! m = Some (kws', res') ->
        ~ matches kws' (search_text u opportunity)) ->
     fallback_categorization u opportunity = res) /\
  ((forall kws res,
      In (kws, res) fallback_rules -> ~ matches kws (search_text u opportunity)) ->
   fallback_categorization u opportunity = fallback_default) /\
  (matches ["assessment"; "audit"; "evaluation"] (search_text u opportunity) ->
   matches ["cloud"; "aws"; "azure"; "gcp"] (search_text u opportunity) ->
   type (fallback_categorization u opportunity) = "Security Assessment" /\
   confidence (fallback_categorization u opportunity) = 70%Z /\
   type (fallback_categorization u opportunity) <> "Cloud Security").
Proof.
  rewrite fallback_rules_correct. split; [| split].
  - intros n kws res Hn Hm Hearlier. by apply (first_match_priority _ _ n kws).
  - apply first_match_default.
  - intros H1 H2.
    rewrite (first_match_priority fallback_rules _ 0 _ _ eq_refl H1).
    + by repeat split.
    + intros m kws' res' Hm. lia.
Qed.

Lemma fallback_rule1_before_rule2_witness :
  type (fallback_categorization Samples.ascii_only Samples.cloud_review)
    = "Security Assessment" /\
  confidence (fallback_categorization Samples.ascii_only Samples.cloud_review) = 70%Z.
Proof.
  destruct (fallback_rule1_before_rule2 Samples.ascii_only Samples.cloud_review)
    as (_ & _ & H).
  destruct H as (Ht & Hc & _).
  - exists "assessment". split; [simpl; auto | apply str_in_spec; reflexivity].
  - exists "cloud". split; [simpl; auto | apply str_in_spec; reflexivity].
  - by split.
Defined.

Lemma fallback_result_shape (u : Unicode) (i : OpportunityForAnalysis) :
  In (type (fallback_categorization u i)) OPPORTUNITY_TYPES /\
  In (confidence (fallback_categorization u i)) [40; 70; 75; 80]%Z.
Proof.
  rewrite fallback_rules_correct.
  destruct (first_match_in_table fallback_rules (search_text u i)) as [->|[kws H]].
  - simpl. tauto.
  - revert H. generalize (first_match fallback_rules (search_text u i)).
    intros r H. simpl in H.
    repeat (destruct H as [H|H];
            [injection H as _ <-; simpl; tauto |]).
    done.
Qed.

(** C4: the fallback classifier is a total function of its input alone
    (it takes the string library but no service and produces no trace):
    it always returns a
    result, the result depends only on the three text fields through the
    search text, its type is one of the twelve categories and its
    confidence is one of 40, 70, 75, 80. *)
Theorem fallback_categorization_total (u : Unicode) (i : OpportunityForAnalysis) :
  exists r : OpportunityAnalysis,
    fallback_categorization u i = r /\
    In (type r) OPPORTUNITY_TYPES /\
    In (confidence r) [40; 70; 75; 80]%Z /\
    (forall j, search_text u j = search_text u i -> fallback_categorization u j = r).
Proof.
  exists (fallback_categorization u i). split; [done |].
  destruct (fallback_result_shape u i) as [Ht Hc]. repeat split; try done.
  intros j Hj. by rewrite !fallback_rules_correct, Hj.
Qed.

(** C9: the search text is the three fields joined by single spaces (an
    absent [onHoldReason] counts as the empty string) and lower-cased, and
    a keyword is looked for anywhere in it, also inside a longer word: if
    a keyword of rule [n] occurs in the search text and no keyword of an
    earlier rule does, rule [n] decides. *)
Theorem fallback_keywords_are_substrings (u : Unicode)
    (opportunity : OpportunityForAnalysis) (n : nat) (kws : list string) (res : OpportunityAnalysis)
    (kw pre suf : string)
    (Hrule : fallback_rules !! n = Some (kws, res))
    (Hkw : In kw kws)
    (Hocc : search_text u opportunity = pre +:+ kw +:+ suf)
    (Hearlier : forall m kws' res' kw' pre' suf',
        m < n -> fallback_rules !! m = Some (kws', res') -> In kw' kws' ->
        search_text u opportunity <> pre' +:+ kw' +:+ suf') :
  search_text u opportunity
    = lower u (opportunityName opportunity +:+ " " +:+ description opportunity +:+ " "
               +:+ match onHoldReason opportunity with Some s => s | None => "" end) /\
  fallback_categorization u opportunity = res.
Proof.
  split.
  - unfold search_text, str_or. by destruct (onHoldReason opportunity) as [[|c s]|].
  - rewrite fallback_rules_correct.
    apply (first_match_priority _ _ n kws); [done | |].
    + exists kw. split; [done |]. by exists pre, suf.
    + intros m kws' res' Hm Hl [kw' [Hin [pre' [suf' Heq]]]].
      by apply (Hearlier m kws' res' kw' pre' suf').
Qed.

Lemma fallback_keywords_are_substrings_witness :
  fallback_categorization Samples.ascii_only Samples.associates
    = {| type := "SIEM/SOC"; confidence := 80;
         reasoning := "Contains SIEM/SOC keywords" |} /\
  fallback_categorization Samples.ascii_only Samples.database
    = {| type := "Data Protection"; confidence := 75;
         reasoning := "Contains data protection keywords" |}.
Proof.
  split.
  - refine (proj2 (fallback_keywords_are_substrings Samples.ascii_only Samples.associates 3
              ["siem"; "soc"; "monitoring"] _ "soc" "partner as" "iates onboarding kick-off call "
              eq_refl _ eq_refl _)).
    + simpl; auto.
    + intros m kws' res' kw' pre' suf' Hm Hl Hin Heq.
      assert (Hs : str_in kw' (search_text Samples.ascii_only Samples.associates) = true)
        by (apply str_in_spec; by exists pre', suf').
      destruct m as [|[|[|m]]]; [| | | lia]; injection Hl as <- _;
        simpl in Hin; repeat (destruct Hin as [<-|Hin]; [by vm_compute in Hs |]); done.
  - refine (proj2 (fallback_keywords_are_substrings Samples.ascii_only Samples.database 6
              ["data"; "encryption"; "backup"; "protection"] _ "data" "" "base refresh quarterly budget"
              eq_refl _ eq_refl _)).
    + simpl; auto.
    + intros m kws' res' kw' pre' suf' Hm Hl Hin Heq.
      assert (Hs : str_in kw' (search_text Samples.ascii_only Samples.database) = true)
        by (apply str_in_spec; by exists pre', suf').
      destruct m as [|[|[|[|[|[|m]]]]]]; [| | | | | | lia]; injection Hl as <- _;
        simpl in Hin; repeat (destruct Hin as [<-|Hin]; [by vm_compute in Hs |]); done.
Defined.

(** ** The item classifier *)

Lemma in_opportunity_types_true v :
  in_opportunity_types v = true -> exists s, v = JStr s /\ In s OPPORTUNITY_TYPES.
Proof.
  destruct v; try done. unfold in_opportunity_types.
  intros H. apply existsb_exists in H as [x [Hin Heq]].
  apply String.eqb_eq in Heq as ->. by exists x.
Qed.

(** The only way through the [try] block without an exception. *)
Lemma handle_response_ok env opp r i a :
  handle_response env opp r = Return (i, a) ->
  i = id opp /\ status_code r = 200%Z /\
  exists s items ty c,
    extract_content r = Return (JStr s) /\
    json_loads env (strip (unicode env) s) = Return (JObj items) /\
    assoc "type" items = Some (JStr ty) /\ In ty OPPORTUNITY_TYPES /\ type a = ty /\
    assoc "confidence" items = Some c /\ validate_int env c = Return (confidence a).
Proof.
  unfold handle_response.
  destruct (status_code r =? 200)%Z eqn:Hst; simpl; [|done].
  apply Z.eqb_eq in Hst.
  destruct (extract_content r) as [e|content]; simpl; [done|].
  destruct (truthy content); simpl; [|done].
  destruct content as [| | | |s| |]; simpl; try done.
  destruct (json_loads env (strip (unicode env) s)) as [e|d] eqn:Hd; simpl; [done|].
  destruct d as [| | | | | |items]; simpl; try done.
  destruct (assoc "type" items) as [ty|] eqn:Hty; simpl; [|done].
  destruct (in_opportunity_types ty) eqn:Hin; simpl; [|done].
  apply in_opportunity_types_true in Hin as [t [-> Hin]].
  rewrite Hty.
  destruct (assoc "confidence" items) as [c|] eqn:Hc; [|done].
  destruct (assoc "reasoning" items) as [w|] eqn:Hw; [|done].
  simpl.
  destruct (validate_int env c) as [e|z] eqn:Hz; simpl; [done|].
  destruct (validate_str env w) as [e|w'] eqn:Hw'; simpl; [done|].
  intros H. injection H as <- <-.
  split; [done|]. split; [done|].
  exists s, items, t, c. by repeat split.
Qed.

(** One call, one result, whatever the environment does. *)
Lemma single_run env opp :
  analyze_single_opportunity env opp
  = (Return (id opp, analysis_of env opp), [EvPost (build_prompt opp)]).
Proof.
  unfold analysis_of, analyze_single_opportunity, try_except, bind, post, lift, ret.
  destruct (client_post env (build_prompt opp)) as [e|r]; simpl; [done|].
  destruct (handle_response env opp r) as [e|[i a]] eqn:H; simpl; [done|].
  by apply handle_response_ok in H as [-> _].
Qed.

Lemma analysis_of_raise env opp :
  (forall r, client_post env (build_prompt opp) = Return r ->
             exists e, handle_response env opp r = Raise e) ->
  analysis_of env opp = fallback_categorization (unicode env) opp.
Proof.
  intros H.
  unfold analysis_of, analyze_single_opportunity, try_except, bind, post, lift, ret.
  destruct (client_post env (build_prompt opp)) as [e|r]; simpl; [done|].
  destruct (H r eq_refl) as [e ->]. done.
Qed.

#[local] Arguments truthy : simpl never.
#[local] Arguments construct_OpportunityAnalysis : simpl never.

Lemma service_failure_raises env opp r :
  service_failure env opp ->
  client_post env (build_prompt opp) = Return r ->
  exists e, handle_response env opp r = Raise e.
Proof.
  intros F Hr. unfold handle_response.
  destruct (status_code r =? 200)%Z eqn:Hst; simpl; [|by eexists].
  apply Z.eqb_eq in Hst.
  destruct F as [e H|r' H Hs|r' e H He|r' c H He Ht|r' c e H He Hs
                |r' s e H He Hl|r' s d e H He Hl Hg|r' s items field H He Hl Hf Ha
                |r' s d ty H He Hl Hg Hin|r' s d e H He Hl Hc];
    rewrite H in Hr; try discriminate; injection Hr as ->; try done;
    rewrite He; simpl.
  - by eexists.
  - rewrite Ht. by eexists.
  - destruct (truthy c); simpl; [rewrite Hs|]; by eexists.
  - destruct (truthy (JStr s)); simpl; [rewrite Hl|]; by eexists.
  - destruct (truthy (JStr s)); simpl; [rewrite Hl; simpl; rewrite Hg|]; by eexists.
  - destruct (truthy (JStr s)); simpl; [rewrite Hl; simpl|by eexists].
    destruct (in_opportunity_types _) eqn:Hin; simpl; [|by eexists].
    unfold construct_OpportunityAnalysis.
    apply in_opportunity_types_true in Hin as [t [Ht _]].
    destruct (assoc "type" items) as [ty|] eqn:Hty; [|done].
    destruct (assoc "confidence" items) as [c|] eqn:Hc;
      destruct (assoc "reasoning" items) as [w|] eqn:Hw; try by eexists.
    simpl in Hf. destruct Hf as [<-|[<-|[<-|[]]]]; congruence.
  - destruct (truthy (JStr s)); simpl; [rewrite Hl; simpl; rewrite Hg; simpl|by eexists].
    rewrite Hin. simpl. by eexists.
  - destruct (truthy (JStr s)); simpl; [rewrite Hl; simpl|by eexists].
    destruct (dict_get d "type" JNull); simpl; [by eexists|].
    destruct (in_opportunity_types _); simpl; [rewrite Hc|]; by eexists.
Qed.

(** C2: [analyze_single_opportunity] always returns a pair for the item's
    own id and never an exception, after exactly one call to the
    service; and whenever the call fails (an exception such as a timeout
    or a transport error, a status other than 200) or its output is
    invalid (empty content, text that does not parse, a missing field, a
    type outside the taxonomy, a rejected field value), the pair is the
    id with [fallback_categorization] of the item. *)
Theorem analyze_single_opportunity_falls_back (env : Env)
    (opportunity : OpportunityForAnalysis) :
  (exists analysis,
     analyze_single_opportunity env opportunity
     = (Return (id opportunity, analysis), [EvPost (build_prompt opportunity)])) /\
  (service_failure env opportunity ->
     analyze_single_opportunity env opportunity
     = (Return (id opportunity, fallback_categorization (unicode env) opportunity),
        [EvPost (build_prompt opportunity)])).
Proof.
  split.
  - eexists. apply single_run.
  - intros F. rewrite single_run. do 2 f_equal. f_equal.
    apply analysis_of_raise. intros r Hr. by apply service_failure_raises.
Qed.

Example timeout_falls_back :
  analyze_single_opportunity Samples.env_timeout Samples.cloud_review
  = (Return ("006A1", {| type := "Security Assessment"; confidence := 70;
                         reasoning := "Contains assessment/audit keywords" |}),
     [EvPost (build_prompt Samples.cloud_review)]).
Proof. reflexivity. Qed.

Example status_500_falls_back :
  service_failure Samples.env_500 Samples.associates /\
  fst (analyze_single_opportunity Samples.env_500 Samples.associates)
  = Return ("006A2", {| type := "SIEM/SOC"; confidence := 80;
                        reasoning := "Contains SIEM/SOC keywords" |}).
Proof.
  split; [| reflexivity].
  by eapply bad_status; [reflexivity |].
Qed.

Example bad_type_falls_back :
  service_failure Samples.env_bad_type Samples.database /\
  fst (analyze_single_opportunity Samples.env_bad_type Samples.database)
  = Return ("006A3", {| type := "Data Protection"; confidence := 75;
                        reasoning := "Contains data protection keywords" |}).
Proof.
  split; [| vm_compute; reflexivity].
  eapply (type_not_in_taxonomy _ _ _ (Samples.answer_text "Ransomware" "90" "sure")
            (Samples.answer "Ransomware" 90 "sure") (JStr "Ransomware"));
    [reflexivity | reflexivity | vm_compute; reflexivity | reflexivity | reflexivity].
Qed.

(** C1, as stated, fails: the service answers with confidence 150 and a
    valid type, and the result carries 150. *)
Lemma confidence_out_of_range :
  exists a t,
    analyze_single_opportunity Samples.env_150 Samples.cloud_review
      = (Return ("006A1", a), t) /\
    confidence a = 150%Z /\ ~ (0 <= confidence a <= 100)%Z.
Proof.
  eexists _, _. split; [vm_compute; reflexivity |]. simpl. split; [done | lia].
Qed.

(** C1, amended: every result of [analyze_single_opportunity] is either
    the fallback result, whose confidence is one of 40, 70, 75, 80 and so
    lies in [0,100], or it is built from the service's answer: then its
    type is in the taxonomy and its confidence is the integer validated
    from the answer's confidence field, an integer given there being
    taken as it is, without clamping. *)
Theorem confidence_of_result (env : Env) (opportunity : OpportunityForAnalysis) :
  exists a,
    analyze_single_opportunity env opportunity
      = (Return (id opportunity, a), [EvPost (build_prompt opportunity)]) /\
    ((a = fallback_categorization (unicode env) opportunity /\
      In (confidence a) [40; 70; 75; 80]%Z /\ (0 <= confidence a <= 100)%Z)
     \/
     (exists r s items ty c,
        client_post env (build_prompt opportunity) = Return r /\
        status_code r = 200%Z /\
        extract_content r = Return (JStr s) /\
        json_loads env (strip (unicode env) s) = Return (JObj items) /\
        assoc "type" items = Some (JStr ty) /\ In ty OPPORTUNITY_TYPES /\
        type a = ty /\
        assoc "confidence" items = Some c /\
        validate_int env c = Return (confidence a) /\
        (forall z, c = JInt z -> confidence a = z))).
Proof.
  exists (analysis_of env opportunity). split; [apply single_run |].
  assert (Hfb : forall a, a = fallback_categorization (unicode env) opportunity ->
            a = fallback_categorization (unicode env) opportunity /\
            In (confidence a) [40; 70; 75; 80]%Z /\ (0 <= confidence a <= 100)%Z).
  { intros a ->. split; [done |].
    destruct (fallback_result_shape (unicode env) opportunity) as [_ Hc].
    split; [done |]. simpl in Hc. lia. }
  unfold analysis_of, analyze_single_opportunity, try_except, bind, post, lift, ret.
  destruct (client_post env (build_prompt opportunity)) as [e|r] eqn:Hr; simpl;
    [left; by apply Hfb |].
  destruct (handle_response env opportunity r) as [e|[i a]] eqn:H; simpl;
    [left; by apply Hfb |].
  right. apply handle_response_ok in H
    as (_ & Hst & s & items & ty & c & He & Hl & Hty & Hin & Ht & Hc & Hv).
  exists r, s, items, ty, c. repeat split; try done.
  intros z ->. simpl in Hv. by injection Hv.
Qed.

(** ** The batch scheduler *)

Lemma gather_tasks env batch :
  gather (map (analyze_single_opportunity env) batch)
  = (Return (map (fun o => Return (id o, analysis_of env o)) batch), posts batch).
Proof.
  induction batch as [|o batch IH]; [done |].
  cbn [map gather posts]. rewrite IH, single_run.
  unfold settle, bind, ret. simpl. by rewrite app_nil_r.
Qed.

Lemma collect_returns env batch m :
  collect m (map (fun o => Return (id o, analysis_of env o)) batch)
  = foldl (record_result env) m batch.
Proof.
  unfold collect. revert m. induction batch as [|o batch IH]; intros m; [done |].
  simpl. apply IH.
Qed.

Lemma process_batch_run env opps m i :
  process_batch env opps m i
  = (Return (foldl (record_result env) m (py_slice opps i (i + batch_size))),
     batch_trace opps i).
Proof.
  unfold process_batch, batch_trace. rewrite gather_tasks.
  unfold bind, sleep, ret. rewrite collect_returns.
  destruct (i + batch_size <? length opps)%nat; simpl; by rewrite ?app_nil_r.
Qed.

Lemma for_each_run env opps idx m :
  for_each (process_batch env opps) m idx
  = (Return (foldl (record_result env) m
               (concat (map (fun i => py_slice opps i (i + batch_size)) idx))),
     concat (map (batch_trace opps) idx)).
Proof.
  revert m. induction idx as [|i idx IH]; intros m; [done |].
  cbn [for_each map concat]. rewrite process_batch_run. unfold bind at 1.
  rewrite IH. by rewrite foldl_app.
Qed.

Lemma py_range_batches n :
  py_range 0 n batch_size = map (fun k => k * 5) (seq 0 ((n + 4) / 5)).
Proof.
  unfold py_range, batch_size. replace (n - 0 + 5 - 1) with (n + 4) by lia.
  apply map_ext. intros k. lia.
Qed.

Lemma py_slice_batch {A} (l : list A) i :
  py_slice l i (i + batch_size) = take 5 (drop i l).
Proof. unfold py_slice, batch_size. by replace (i + 5 - i) with 5 by lia. Qed.

Lemma batch_count_spec n :
  n <= (n + 4) / 5 * 5 /\ (n + 4) / 5 * 5 < n + 5.
Proof.
  pose proof (Nat.div_mod_eq (n + 4) 5) as E.
  pose proof (Nat.mod_upper_bound (n + 4) 5) as U. lia.
Qed.

Lemma chunks_from {A} (l : list A) k a :
  concat (map (fun i => py_slice l i (i + batch_size))
              (map (fun k => k * 5) (seq a k)))
  = take (k * 5) (drop (a * 5) l).
Proof.
  revert a. induction k as [|k IH]; intros a; [done |].
  cbn [seq map concat]. rewrite IH, py_slice_batch.
  replace (S a * 5) with (a * 5 + 5) by lia. rewrite <- drop_drop.
  rewrite take_take_drop. f_equal.
Qed.

Lemma concat_chunks opps : concat (chunks opps) = opps.
Proof.
  unfold chunks. rewrite py_range_batches, chunks_from.
  change (drop (0 * 5) opps) with opps.
  apply take_ge. pose proof (batch_count_spec (length opps)). lia.
Qed.

Lemma chunks_lookup opps i c :
  chunks opps !! i = Some c ->
  c = take 5 (drop (i * 5) opps) /\ i * 5 < length opps /\
  (S i < length (chunks opps) -> (i + 1) * 5 < length opps).
Proof.
  unfold chunks. rewrite py_range_batches, !length_map, length_seq.
  rewrite !list_lookup_fmap. intros H.
  destruct (seq 0 ((length opps + 4) / 5) !! i) as [k|] eqn:Hk; [|done].
  apply lookup_seq in Hk as [-> Hlt]. simpl in H. injection H as <-.
  pose proof (batch_count_spec (length opps)) as B.
  rewrite py_slice_batch. repeat split; lia.
Qed.

Lemma trace_paced_from opps k a :
  a + k = (length opps + 4) / 5 ->
  concat (map (batch_trace opps) (map (fun k => k * 5) (seq a k)))
  = paced (map posts (map (fun i => py_slice opps i (i + batch_size))
                          (map (fun k => k * 5) (seq a k)))).
Proof.
  pose proof (batch_count_spec (length opps)) as B.
  revert a. induction k as [|k IH]; intros a Hak; [done |].
  cbn [seq map concat]. rewrite IH by lia. unfold batch_trace at 1.
  destruct k as [|k].
  - assert (Hlast : (a * 5 + batch_size <? length opps)%nat = false)
      by (apply Nat.ltb_ge; unfold batch_size; lia).
    rewrite Hlast. simpl. by rewrite !app_nil_r.
  - assert (Hmore : (a * 5 + batch_size <? length opps)%nat = true)
      by (apply Nat.ltb_lt; unfold batch_size; lia).
    rewrite Hmore. cbn [seq map paced]. by rewrite <- app_assoc.
Qed.

(** What a request with at least one item comes to. *)
Lemma analyze_opportunities_run env now request :
  opportunities request <> [] ->
  analyze_opportunities env now request
  = (Return {| results := foldl (record_result env) ∅ (opportunities request);
               processed_count :=
                 Z.of_nat (size (foldl (record_result env) ∅ (opportunities request)));
               timestamp := now |},
     paced (map posts (chunks (opportunities request)))).
Proof.
  intros Hne. unfold analyze_opportunities.
  destruct (opportunities request) as [|o opps] eqn:E; [done |]. clear Hne.
  rewrite for_each_run. unfold bind, ret.
  fold (chunks (o :: opps)). rewrite concat_chunks.
  rewrite py_range_batches, (trace_paced_from _ _ 0) by done.
  rewrite <- py_range_batches. fold (chunks (o :: opps)). by rewrite app_nil_r.
Qed.

Lemma analyze_opportunities_trace env now request :
  snd (analyze_opportunities env now request)
  = paced (map posts (chunks (opportunities request))).
Proof.
  destruct (opportunities request) as [|o opps] eqn:E.
  - unfold analyze_opportunities. by rewrite E.
  - rewrite analyze_opportunities_run by (by rewrite E). by rewrite E.
Qed.

Lemma count_sleeps_app t1 t2 :
  count_sleeps (t1 ++ t2) = count_sleeps t1 + count_sleeps t2.
Proof. unfold count_sleeps. by rewrite List.filter_app, length_app. Qed.

Lemma count_sleeps_posts batch : count_sleeps (posts batch) = 0.
Proof. by induction batch. Qed.

Lemma paced_cons_cons g g' groups :
  paced (map posts (g :: g' :: groups))
  = (posts g ++ EvSleep 1 :: paced (map posts (g' :: groups)))%list.
Proof. reflexivity. Qed.

Lemma count_sleeps_paced groups :
  count_sleeps (paced (map posts groups)) = length groups - 1.
Proof.
  induction groups as [|g groups IH]; [done |].
  destruct groups as [|g' groups].
  - simpl. apply count_sleeps_posts.
  - rewrite paced_cons_cons, count_sleeps_app, count_sleeps_posts.
    change (EvSleep 1 :: ?t) with ([EvSleep 1] ++ t)%list.
    rewrite count_sleeps_app, IH. simpl. lia.
Qed.

(** The trace of non-empty groups ends with a call, not with a pause. *)
Lemma last_paced groups :
  groups <> [] -> Forall (fun g => g <> []) groups ->
  exists opp, last (paced (map posts groups)) = Some (EvPost (build_prompt opp)).
Proof.
  induction groups as [|g groups IH]; intros Hne HF; [done |].
  apply Forall_cons in HF as [Hg HF].
  destruct groups as [|g' groups].
  - simpl. unfold posts. rewrite fmap_last.
    apply last_is_Some in Hg as [o ->]. by exists o.
  - destruct IH as [o Ho]; [done | done |]. exists o.
    by rewrite paced_cons_cons, last_app, last_cons, Ho.
Qed.

Lemma chunks_nonempty opps : Forall (fun g => g <> []) (chunks opps).
Proof.
  apply Forall_lookup. intros i c Hc.
  apply chunks_lookup in Hc as (-> & Hlt & _).
  intros E.
  assert (L : length (take 5 (drop (i * 5) opps)) = 0) by (by rewrite E).
  rewrite length_take, length_drop in L. lia.
Qed.

(** C5: the loop works on the input cut, in order, into groups of five
    (the last one may be shorter, none is empty); its trace is the calls
    of each group with one pause of one unit between consecutive groups
    and none after the last, also when the last group is full: twelve
    items give groups of 5, 5 and 2 and two pauses, ten items give two
    full groups and one pause. *)
Theorem batches_of_five_paced (env : Env) (now : string) (request : AnalysisRequest) :
  let opps := opportunities request in
  let trace := snd (analyze_opportunities env now request) in
  concat (chunks opps) = opps /\
  (forall i c, chunks opps !! i = Some c ->
     0 < length c <= 5 /\ (S i < length (chunks opps) -> length c = 5)) /\
  trace = paced (map posts (chunks opps)) /\
  count_sleeps trace = length (chunks opps) - 1 /\
  (forall s, last trace <> Some (EvSleep s)) /\
  (forall e, In e trace -> is_sleep e = true -> e = EvSleep 1) /\
  (length opps = 12 ->
     map length (chunks opps) = [5; 5; 2] /\ count_sleeps trace = 2) /\
  (length opps = 10 ->
     map length (chunks opps) = [5; 5] /\ count_sleeps trace = 1).
Proof.
  intros opps trace.
  assert (Htrace : trace = paced (map posts (chunks opps)))
    by apply analyze_opportunities_trace.
  assert (Hcount : count_sleeps trace = length (chunks opps) - 1)
    by (rewrite Htrace; apply count_sleeps_paced).
  split; [apply concat_chunks |].
  split.
  { intros i c Hc. apply chunks_lookup in Hc as (-> & Hlt & Hfull).
    rewrite length_take, length_drop. split; [lia |].
    intros Hi. specialize (Hfull Hi). lia. }
  split; [done |]. split; [done |].
  split.
  { intros s. rewrite Htrace. destruct (chunks opps) as [|g gs] eqn:E; [done |].
    destruct (last_paced (g :: gs)) as [o ->]; [done | | done].
    rewrite <- E. apply chunks_nonempty. }
  split.
  { rewrite Htrace. generalize (chunks opps). intros groups e.
    induction groups as [|g groups IH]; [done |].
    assert (Hg : In e (posts g) -> is_sleep e = true -> e = EvSleep 1).
    { unfold posts. intros Hin. apply in_map_iff in Hin as [o [<- _]]. done. }
    destruct groups as [|g' groups]; [exact Hg |].
    rewrite paced_cons_cons. intros Hin. apply in_app_iff in Hin as [Hin|[<-|Hin]];
      [by apply Hg | done | by apply IH]. }
  assert (Hlen : forall n, length opps = n ->
            map length (chunks opps)
            = map (fun i => length (py_slice (replicate n tt) i (i + batch_size)))
                  (py_range 0 n batch_size)).
  { intros n Hn. unfold chunks. rewrite Hn, map_map. apply map_ext. intros i.
    unfold py_slice. by rewrite !length_take, !length_drop, length_replicate, Hn. }
  split; intros Hn.
  - split; [by rewrite (Hlen _ Hn) |].
    rewrite Hcount, <- (length_map length), (Hlen _ Hn). done.
  - split; [by rewrite (Hlen _ Hn) |].
    rewrite Hcount, <- (length_map length), (Hlen _ Hn). done.
Qed.

(** ** The results mapping *)

Lemma results_dom env l (m : gmap string OpportunityAnalysis) :
  dom (foldl (record_result env) m l) = dom m ∪ list_to_set (map id l).
Proof.
  revert m. induction l as [|o l IH]; intros m.
  - cbn [foldl map]. by rewrite list_to_set_nil, (right_id_L ∅ (∪)).
  - cbn [foldl map]. rewrite IH, list_to_set_cons. unfold record_result.
    rewrite dom_insert_L, (comm_L (∪) {[id o]} (dom m)).
    by rewrite (assoc_L (∪)).
Qed.

Lemma size_list_to_set_le (l : list string) :
  size (list_to_set l : gset string) <= length l /\
  (~ NoDup l -> size (list_to_set l : gset string) < length l).
Proof.
  induction l as [|x l [IHle IHlt]].
  - rewrite list_to_set_nil, size_empty. split; [done |].
    intros H. destruct H. constructor.
  - rewrite list_to_set_cons. cbn [length].
    destruct (decide (x ∈ l)) as [Hin|Hnin].
    + assert (E : ({[x]} ∪ list_to_set l : gset string) = list_to_set l)
        by (by apply subseteq_union_1_L, singleton_subseteq_l, elem_of_list_to_set).
      rewrite E. split; lia.
    + rewrite size_union by set_solver. rewrite size_singleton. split; [lia |].
      intros Hnd. assert (Hl : ~ NoDup l) by (intros Hl; apply Hnd; by constructor).
      specialize (IHlt Hl). lia.
Qed.

Lemma results_untouched env l (m : gmap string OpportunityAnalysis) k :
  (forall o, o ∈ l -> id o <> k) ->
  foldl (record_result env) m l !! k = m !! k.
Proof.
  revert m. induction l as [|o l IH]; intros m H; [done |].
  simpl. rewrite IH by (intros o' Ho'; apply H; by right).
  unfold record_result. apply lookup_insert_ne. apply H. by left.
Qed.

(** C6: for a non-empty batch the response is returned, its
    [processed_count] is the number of entries of its results mapping,
    every key of the mapping is the id of an item of the batch, and
    [processed_count] is at most the number of items. *)
Theorem processed_count_is_size (env : Env) (now : string) (request : AnalysisRequest)
    (Hne : opportunities request <> []) :
  exists resp,
    fst (analyze_opportunities env now request) = Return resp /\
    processed_count resp = Z.of_nat (size (results resp)) /\
    (forall k, k ∈ dom (results resp) ->
       exists o, o ∈ opportunities request /\ id o = k) /\
    (processed_count resp <= Z.of_nat (length (opportunities request)))%Z.
Proof.
  rewrite analyze_opportunities_run by done. eexists. split; [done |]. simpl.
  split; [done |]. split.
  - intros k. rewrite results_dom, dom_empty_L, elem_of_union, elem_of_list_to_set.
    intros [Hk|Hk]; [set_solver |].
    apply list_elem_of_fmap in Hk as [o [-> Ho]]. by exists o.
  - rewrite <- size_dom, results_dom, dom_empty_L, (left_id_L ∅ (∪)).
    pose proof (size_list_to_set_le (map id (opportunities request))) as [Hle _].
    rewrite length_map in Hle. lia.
Qed.

Lemma processed_count_is_size_witness :
  exists resp,
    fst (analyze_opportunities Samples.env_timeout "2026-01-01T00:00:00"
           {| opportunities := [Samples.cloud_review; Samples.associates] |})
      = Return resp /\
    processed_count resp = Z.of_nat (size (results resp)) /\
    (forall k, k ∈ dom (results resp) ->
       exists o, o ∈ [Samples.cloud_review; Samples.associates] /\ id o = k) /\
    (processed_count resp <= 2)%Z.
Proof.
  apply (processed_count_is_size Samples.env_timeout "2026-01-01T00:00:00"
           {| opportunities := [Samples.cloud_review; Samples.associates] |}).
  simpl. discriminate.
Defined.

(** C7: with an empty list of opportunities the request is rejected with
    status 400 and nothing else happens: the trace is empty, so the
    service is not called and no item is classified. *)
Theorem empty_request_rejected (env : Env) (now : string) :
  analyze_opportunities env now {| opportunities := [] |}
  = (Raise (HTTPException 400 "No opportunities provided for analysis"), []).
Proof. reflexivity. Qed.

(** C8: against one and the same service, running the same batch twice
    gives the same outcome up to the time stamp: the same calls, and
    either the same rejection or responses with the same results mapping
    and the same [processed_count], each stamped with its own clock
    reading. *)
Theorem same_batch_same_results (env : Env) (now1 now2 : string)
    (request : AnalysisRequest) :
  snd (analyze_opportunities env now1 request)
    = snd (analyze_opportunities env now2 request) /\
  match fst (analyze_opportunities env now1 request),
        fst (analyze_opportunities env now2 request) with
  | Return r1, Return r2 =>
      results r1 = results r2 /\ processed_count r1 = processed_count r2 /\
      timestamp r1 = now1 /\ timestamp r2 = now2
  | Raise e1, Raise e2 => e1 = e2
  | _, _ => False
  end.
Proof.
  destruct (opportunities request) as [|o opps] eqn:E.
  - unfold analyze_opportunities. rewrite E. by split.
  - rewrite !analyze_opportunities_run by (by rewrite E). by split.
Qed.

(** C10: ids that repeat are not rejected.  When two items of a batch
    have the same id, the response is still returned, the results mapping
    has exactly one entry for that id, [processed_count] is smaller than
    the number of items, and the entry is the classification of the last
    item with that id: a later result overwrites an earlier one. *)
Theorem duplicate_ids_overwrite (env : Env) (now : string) (request : AnalysisRequest)
    (l1 l2 l3 : list OpportunityForAnalysis) (o1 o2 : OpportunityForAnalysis)
    (Hopps : opportunities request = (l1 ++ o1 :: l2 ++ o2 :: l3)%list)
    (Hid : id o1 = id o2) :
  exists resp,
    fst (analyze_opportunities env now request) = Return resp /\
    (exists a, forall a', (id o1, a') ∈ map_to_list (results resp) <-> a' = a) /\
    (processed_count resp < Z.of_nat (length (opportunities request)))%Z /\
    ((forall o, o ∈ l3 -> id o <> id o2) ->
       results resp !! id o1 = Some (analysis_of env o2)).
Proof.
  assert (Hne : opportunities request <> []) by (rewrite Hopps; by destruct l1).
  rewrite analyze_opportunities_run by done. eexists. split; [done |]. simpl.
  assert (Hin : id o1 ∈ dom (foldl (record_result env) ∅ (opportunities request))).
  { rewrite results_dom, Hopps, elem_of_union, elem_of_list_to_set. right.
    apply list_elem_of_fmap. exists o1. split; [done |]. set_solver. }
  apply elem_of_dom in Hin as [a Ha].
  split; [| split].
  - exists a. intros a'. rewrite elem_of_map_to_list, Ha. split; congruence.
  - rewrite <- size_dom, results_dom, dom_empty_L, (left_id_L ∅ (∪)).
    pose proof (size_list_to_set_le (map id (opportunities request))) as [_ Hlt].
    rewrite length_map in Hlt. apply inj_lt, Hlt.
    rewrite Hopps, map_app. simpl. rewrite map_app. simpl. rewrite Hid.
    intros Hnd. apply NoDup_app in Hnd as (_ & _ & Hnd).
    apply NoDup_cons in Hnd as [Hnd _]. apply Hnd. set_solver.
  - intros Hlast. rewrite Hopps, Hid.
    replace (l1 ++ o1 :: l2 ++ o2 :: l3)%list
      with ((l1 ++ o1 :: l2) ++ o2 :: l3)%list by (by rewrite <- app_assoc).
    rewrite foldl_app. simpl.
    rewrite results_untouched by done.
    unfold record_result. apply lookup_insert_eq.
Qed.

Lemma duplicate_ids_overwrite_witness :
  exists resp,
    fst (analyze_opportunities Samples.env_timeout "2026-01-01T00:00:00"
           {| opportunities := [Samples.opp "7" "Firewall refresh" "" None;
                                Samples.opp "7" "Phishing drill" "" None] |})
      = Return resp /\
    (exists a, forall a', ("7", a') ∈ map_to_list (results resp) <-> a' = a) /\
    (processed_count resp < 2)%Z /\
    results resp !! "7"
      = Some {| type := "Security Training"; confidence := 75;
                reasoning := "Contains security training keywords" |}.
Proof.
  destruct (duplicate_ids_overwrite Samples.env_timeout "2026-01-01T00:00:00"
              {| opportunities := [Samples.opp "7" "Firewall refresh" "" None;
                                   Samples.opp "7" "Phishing drill" "" None] |}
              [] [] [] (Samples.opp "7" "Firewall refresh" "" None)
              (Samples.opp "7" "Phishing drill" "" None) eq_refl eq_refl)
    as (resp & Hr & Hone & Hlt & Hlast).
  exists resp. split; [exact Hr |]. split; [exact Hone |]. split; [exact Hlt |].
  transitivity
    (Some (analysis_of Samples.env_timeout (Samples.opp "7" "Phishing drill" "" None))).
  - apply Hlast. intros o Ho. inversion Ho.
  - reflexivity.
Defined.

(** ** More on the fallback classifier *)

Lemma ascii_lower_app a b : ascii_lower (a +:+ b) = ascii_lower a +:+ ascii_lower b.
Proof. induction a as [|c a IH]; simpl; [done | by rewrite IH]. Qed.

Lemma is_ascii_app a b : is_ascii (a +:+ b) = is_ascii a && is_ascii b.
Proof.
  induction a as [|c a IH]; simpl; [done |]. by rewrite IH, andb_assoc.
Qed.

(** On ASCII text the library is not consulted. *)
Lemma lower_on_ascii u s : is_ascii s = true -> lower u s = ascii_lower s.
Proof. unfold lower. by intros ->. Qed.

Lemma strip_on_ascii u s : is_ascii s = true -> strip u s = ascii_strip s.
Proof. unfold strip. by intros ->. Qed.

Lemma search_text_fields u o :
  ascii_item o = true ->
  search_text u o
  = ascii_lower (opportunityName o) +:+ " " +:+ ascii_lower (description o) +:+ " "
    +:+ ascii_lower (str_or (onHoldReason o) "").
Proof.
  unfold ascii_item, search_text. intros H.
  apply andb_prop in H as [H H3]. apply andb_prop in H as [H1 H2].
  rewrite lower_on_ascii, !ascii_lower_app; [done |].
  rewrite !is_ascii_app, H1, H2, H3. done.
Qed.

(** What [first_match] returns, and why. *)
Lemma first_match_inv rules text :
  (first_match rules text = fallback_default /\
   forall kws res, In (kws, res) rules -> ~ matches kws text) \/
  (exists n kws res,
     rules !! n = Some (kws, res) /\ matches kws text /\
     (forall m kws' res', m < n -> rules !! m = Some (kws', res') ->
                          ~ matches kws' text) /\
     first_match rules text = res).
Proof.
  induction rules as [|[kws0 res0] rules IH]; simpl.
  - left. split; [done |]. intros kws res [].
  - destruct (existsb _ kws0) eqn:E.
    + right. exists 0, kws0, res0. apply existsb_str_in in E.
      repeat split; try done. intros m kws' res' Hm. lia.
    + assert (Hno : ~ matches kws0 text).
      { intros Hm. apply existsb_str_in in Hm. congruence. }
      destruct IH as [[Hd Hnone]|(n & kws & res & Hn & Hm & Hearlier & Hr)].
      * left. split; [done |]. intros kws res [[= <- <-]|Hin]; [done |].
        by apply (Hnone kws res).
      * right. exists (S n), kws, res. repeat split; try done.
        intros [|m] kws' res' Hlt Hl; simpl in Hl.
        -- by injection Hl as <- <-.
        -- apply (Hearlier m kws' res'); [lia | done].
Qed.

Lemma fallback_rules_distinct :
  NoDup (map (fun rule => reasoning (snd rule)) fallback_rules).
Proof.
  refine (bool_decide_unpack _ _). vm_compute. exact I.
Qed.

Lemma fallback_rules_not_default kws res :
  In (kws, res) fallback_rules -> confidence res <> 40%Z.
Proof.
  intros H. simpl in H.
  repeat (destruct H as [H|H]; [injection H as _ <-; simpl; lia |]). done.
Qed.

(** Text outside ASCII goes through the library: where it folds the
    Kelvin sign to [k], as [str.lower] does, the keyword [network] is
    found. *)
Example kelvin_sign_is_folded (u : Unicode) :
  unicode_lower u ("NETWOR" +:+ Samples.kelvin_sign +:+ " upgrade ")
    = "network upgrade " ->
  fallback_categorization u
    (Samples.opp "1" ("NETWOR" +:+ Samples.kelvin_sign) "upgrade" None)
  = {| type := "Network Security"; confidence := 75;
       reasoning := "Contains network security keywords" |}.
Proof.
  intros H. unfold fallback_categorization, search_text, lower.
  cbn [Samples.opp opportunityName description onHoldReason str_or].
  change (is_ascii _) with false. cbv iota.
  change (_ +:+ " " +:+ "upgrade" +:+ " " +:+ "")
    with ("NETWOR" +:+ Samples.kelvin_sign +:+ " upgrade ").
  rewrite H. reflexivity.
Qed.

(** A generated text padded with a no-break space is stripped by the
    library, not by the ASCII path. *)
Example no_break_space_is_stripped (u : Unicode) (good : string) :
  strip u (Samples.no_break_space +:+ good)
  = unicode_strip u (Samples.no_break_space +:+ good).
Proof. reflexivity. Qed.

(** X1: the fallback result is that of rule [n] exactly when a keyword of
    rule [n] occurs in the search text and no keyword of an earlier rule
    does. *)
Theorem fallback_rule_exactly (u : Unicode) (o : OpportunityForAnalysis) (n : nat)
    (kws : list string) (res : OpportunityAnalysis)
    (Hrule : fallback_rules !! n = Some (kws, res)) :
  fallback_categorization u o = res <->
  (matches kws (search_text u o) /\
   forall m kws' res', m < n -> fallback_rules !! m = Some (kws', res') ->
                       ~ matches kws' (search_text u o)).
Proof.
  rewrite fallback_rules_correct. split.
  - intros Heq.
    destruct (first_match_inv fallback_rules (search_text u o))
      as [[Hd _]|(n' & kws' & res' & Hn' & Hm & Hearlier & Hr)].
    + exfalso. apply (fallback_rules_not_default kws res).
      * apply list_elem_of_In, list_elem_of_lookup. by exists n.
      * by rewrite <- Heq, Hd.
    + assert (n' = n) as ->.
      { apply (NoDup_lookup _ n' n (reasoning res) fallback_rules_distinct).
        - change (map ?f ?l) with (f <$> l). rewrite list_lookup_fmap, Hn'. simpl. congruence.
        - change (map ?f ?l) with (f <$> l). by rewrite list_lookup_fmap, Hrule. }
      rewrite Hrule in Hn'. injection Hn' as <- <-. by split.
  - intros [Hm Hearlier]. by apply (first_match_priority _ _ n kws).
Qed.

Lemma fallback_rule_exactly_witness :
  matches ["siem"; "soc"; "monitoring"] (search_text Samples.ascii_only Samples.associates) /\
  forall m kws' res', m < 3 -> fallback_rules !! m = Some (kws', res') ->
                      ~ matches kws' (search_text Samples.ascii_only Samples.associates).
Proof.
  apply (proj1 (fallback_rule_exactly Samples.ascii_only Samples.associates 3
                  ["siem"; "soc"; "monitoring"]
                  {| type := "SIEM/SOC"; confidence := 80;
                     reasoning := "Contains SIEM/SOC keywords" |} eq_refl)).
  reflexivity.
Defined.

(** X2: the fallback confidence is 40 exactly when no keyword of any rule
    occurs in the search text, and the result is then the default one. *)
Theorem fallback_default_exactly (u : Unicode) (o : OpportunityForAnalysis) :
  (confidence (fallback_categorization u o) = 40%Z <->
   forall kws res, In (kws, res) fallback_rules -> ~ matches kws (search_text u o)) /\
  (confidence (fallback_categorization u o) = 40%Z ->
   fallback_categorization u o = fallback_default).
Proof.
  rewrite fallback_rules_correct.
  destruct (first_match_inv fallback_rules (search_text u o))
    as [[Hd Hnone]|(n & kws & res & Hn & Hm & _ & Hr)].
  - rewrite Hd. by repeat split.
  - assert (Hin : In (kws, res) fallback_rules).
    { apply list_elem_of_In, list_elem_of_lookup. by exists n. }
    pose proof (fallback_rules_not_default kws res Hin) as Hc.
    rewrite Hr. split; [split |]; try done.
    intros Hnone. by destruct (Hnone kws res Hin).
Qed.

(** X3: on ASCII text letter case does not matter to the fallback: two
    items whose name, description and on-hold reason (an absent one
    counting as empty) are ASCII and agree once lower-cased get the same
    result, whatever the Unicode library. *)
Theorem fallback_ignores_case (u u' : Unicode) (o o' : OpportunityForAnalysis)
    (Hascii : ascii_item o = true) (Hascii' : ascii_item o' = true)
    (Hname : ascii_lower (opportunityName o) = ascii_lower (opportunityName o'))
    (Hdesc : ascii_lower (description o) = ascii_lower (description o'))
    (Hhold : ascii_lower (str_or (onHoldReason o) "")
             = ascii_lower (str_or (onHoldReason o') "")) :
  fallback_categorization u o = fallback_categorization u' o'.
Proof.
  rewrite !fallback_rules_correct, !search_text_fields by done.
  by rewrite Hname, Hdesc, Hhold.
Qed.

Lemma fallback_ignores_case_witness :
  fallback_categorization Samples.ascii_only
    (Samples.opp "1" "FIREWALL Upgrade" "Branch Offices" None)
  = fallback_categorization Samples.ascii_only
      (Samples.opp "2" "firewall upgrade" "branch offices" (Some "")).
Proof.
  apply fallback_ignores_case; reflexivity.
Defined.

Lemma startswith_before_space kw x b :
  str_in " " kw = false ->
  startswith kw (x +:+ " " +:+ b) = startswith kw x.
Proof.
  revert x. induction kw as [|k kw IH]; intros x Hns; [by destruct x |].
  simpl in Hns. apply orb_false_elim in Hns as [Hk Hns].
  destruct x as [|c x]; simpl.
  - destruct (Ascii.eqb_spec k " ") as [->|_]; [by destruct kw | done].
  - destruct (Ascii.eqb k c); [by apply IH | done].
Qed.

(** A keyword without a space occurs in [a b] only inside [a] or inside
    [b]. *)
Lemma str_in_across_space kw a b :
  str_in " " kw = false ->
  str_in kw (a +:+ " " +:+ b) = str_in kw a || str_in kw b.
Proof.
  intros Hns. induction a as [|c a IH].
  - change ("" +:+ " " +:+ b) with (String " " b).
    cbn [str_in]. destruct kw as [|k kw]; [done |].
    simpl in Hns. apply orb_false_elim in Hns as [Hk _].
    cbn [startswith]. destruct (Ascii.eqb_spec k " ") as [->|_]; [by destruct kw | done].
  - change (String c a +:+ " " +:+ b) with (String c (a +:+ " " +:+ b)).
    cbn [str_in]. rewrite IH.
    change (String c (a +:+ " " +:+ b)) with (String c a +:+ " " +:+ b).
    rewrite (startswith_before_space kw (String c a) b Hns).
    by rewrite orb_assoc.
Qed.

Lemma fallback_keywords_no_space kws res kw :
  In (kws, res) fallback_rules -> In kw kws -> str_in " " kw = false.
Proof.
  intros H Hkw. simpl in H.
  repeat (destruct H as [H|H];
          [injection H as <- _; simpl in Hkw;
           repeat (destruct Hkw as [<-|Hkw]; [reflexivity |]); done |]).
  done.
Qed.

(** X4: for an item whose three fields are ASCII text, a keyword of the
    table occurs in the search text exactly when it occurs, letter case
    aside, in the name, in the description or in the on-hold reason: the
    fields are joined by spaces and no keyword has a space, so a match
    never runs across two fields. *)
Theorem fallback_keyword_within_field (u : Unicode) (o : OpportunityForAnalysis)
    (kws : list string) (res : OpportunityAnalysis) (kw : string)
    (Hascii : ascii_item o = true)
    (Hrule : In (kws, res) fallback_rules) (Hkw : In kw kws) :
  substring kw (search_text u o) <->
  substring kw (ascii_lower (opportunityName o)) \/
  substring kw (ascii_lower (description o)) \/
  substring kw (ascii_lower (str_or (onHoldReason o) "")).
Proof.
  pose proof (fallback_keywords_no_space kws res kw Hrule Hkw) as Hns.
  rewrite <- !str_in_spec, search_text_fields by done.
  rewrite !str_in_across_space by done.
  rewrite !orb_true_iff. tauto.
Qed.

Lemma fallback_keyword_within_field_witness :
  ~ substring "soc" (search_text Samples.ascii_only
                       (Samples.opp "1" "Iso" "Certification" None)).
Proof.
  rewrite (fallback_keyword_within_field Samples.ascii_only
             (Samples.opp "1" "Iso" "Certification" None)
             ["siem"; "soc"; "monitoring"]
             {| type := "SIEM/SOC"; confidence := 80;
                reasoning := "Contains SIEM/SOC keywords" |} "soc").
  - intros [H|[H|H]]; apply str_in_spec in H; discriminate.
  - reflexivity.
  - simpl. tauto.
  - simpl. tauto.
Defined.

(** X5: every category of the taxonomy is the fallback result of some
    item. *)
Theorem fallback_reaches_every_type (u : Unicode) (ty : string)
    (Hty : In ty OPPORTUNITY_TYPES) :
  exists o, type (fallback_categorization u o) = ty.
Proof.
  simpl in Hty.
  destruct Hty as [<-|[<-|[<-|[<-|[<-|[<-|[<-|[<-|[<-|[<-|[<-|[<-|[]]]]]]]]]]]]].
  - by exists (Samples.opp "" "audit" "" None).
  - by exists (Samples.opp "" "cloud" "" None).
  - by exists (Samples.opp "" "endpoint" "" None).
  - by exists (Samples.opp "" "siem" "" None).
  - by exists (Samples.opp "" "identity" "" None).
  - by exists (Samples.opp "" "firewall" "" None).
  - by exists (Samples.opp "" "data" "" None).
  - by exists (Samples.opp "" "vulnerability" "" None).
  - by exists (Samples.opp "" "compliance" "" None).
  - by exists (Samples.opp "" "incident" "" None).
  - by exists (Samples.opp "" "training" "" None).
  - by exists (Samples.opp "" "mainframe" "" None).
Qed.

Lemma fallback_reaches_every_type_witness :
  exists o, type (fallback_categorization Samples.ascii_only o) = "Mainframe Security".
Proof.
  apply (fallback_reaches_every_type Samples.ascii_only). simpl. tauto.
Defined.

(** ** More on the item classifier *)

(** The item enters the [try] block only through its id and its fallback
    result. *)
Lemma handle_response_same env o o' r :
  fallback_categorization (unicode env) o = fallback_categorization (unicode env) o' ->
  match handle_response env o r, handle_response env o' r with
  | Return (_, a), Return (_, a') => a = a'
  | Raise _, Raise _ => True
  | _, _ => False
  end.
Proof.
  intros Hfb. unfold handle_response. rewrite Hfb.
  destruct (status_code r =? 200)%Z; simpl; [|done].
  destruct (extract_content r) as [e|content]; simpl; [done |].
  destruct (truthy content); simpl; [|done].
  destruct (str_strip (unicode env) content) as [e|stripped]; simpl; [done |].
  destruct (json_loads env stripped) as [e|d]; simpl; [done |].
  destruct (dict_get d "type" JNull) as [e|ty]; simpl; [done |].
  by destruct (construct_OpportunityAnalysis env _).
Qed.

(** X6: the classification of an item does not depend on its id, and an
    absent on-hold reason is treated like an empty one: two items with
    the same name, the same description and the same on-hold reason up to
    that get the same classification from the same service. *)
Theorem analysis_ignores_id (env : Env) (o o' : OpportunityForAnalysis)
    (Hname : opportunityName o = opportunityName o')
    (Hdesc : description o = description o')
    (Hhold : str_or (onHoldReason o) "" = str_or (onHoldReason o') "") :
  build_prompt o = build_prompt o' /\
  exists a,
    fst (analyze_single_opportunity env o) = Return (id o, a) /\
    fst (analyze_single_opportunity env o') = Return (id o', a).
Proof.
  assert (Hna : str_or (onHoldReason o) "N/A" = str_or (onHoldReason o') "N/A").
  { destruct (onHoldReason o) as [[|c s]|], (onHoldReason o') as [[|c' s']|];
      simpl in *; done. }
  assert (Hp : build_prompt o = build_prompt o').
  { unfold build_prompt. by rewrite Hname, Hdesc, Hna. }
  assert (Hfb : fallback_categorization (unicode env) o = fallback_categorization (unicode env) o').
  { rewrite !fallback_rules_correct. unfold search_text. by rewrite Hname, Hdesc, Hhold. }
  split; [done |]. exists (analysis_of env o).
  rewrite !single_run. split; [done |]. simpl. do 2 f_equal.
  unfold analysis_of, analyze_single_opportunity, try_except, bind, post, lift, ret.
  rewrite <- Hp.
  destruct (client_post env (build_prompt o)) as [e|r]; simpl; [by rewrite Hfb |].
  pose proof (handle_response_same env o o' r Hfb) as H.
  destruct (handle_response env o r) as [e|[i a]],
           (handle_response env o' r) as [e'|[i' a']]; simpl; done.
Qed.

Lemma analysis_ignores_id_witness :
  exists a,
    fst (analyze_single_opportunity Samples.env_150
           (Samples.opp "A" "Backup rollout" "Phase 2" None)) = Return ("A", a) /\
    fst (analyze_single_opportunity Samples.env_150
           (Samples.opp "B" "Backup rollout" "Phase 2" (Some ""))) = Return ("B", a).
Proof.
  apply (analysis_ignores_id Samples.env_150
           (Samples.opp "A" "Backup rollout" "Phase 2" None)
           (Samples.opp "B" "Backup rollout" "Phase 2" (Some ""))); reflexivity.
Defined.

(** X7: a well-formed answer is returned as it stands.  When the service
    answers with status 200 and a non-empty generated text that decodes
    to an object whose type is a string of the taxonomy, whose confidence
    is an integer and whose reasoning is a string, the result carries
    exactly these three values; other keys of the object play no part. *)
Theorem service_answer_returned (env : Env) (o : OpportunityForAnalysis)
    (r : response) (s : string) (items : list (string * json))
    (ty why : string) (conf : Z)
    (Hpost : client_post env (build_prompt o) = Return r)
    (Hstatus : status_code r = 200%Z)
    (Hcontent : extract_content r = Return (JStr s))
    (Hnonempty : s <> "")
    (Hloads : json_loads env (strip (unicode env) s) = Return (JObj items))
    (Htype : assoc "type" items = Some (JStr ty))
    (Hin : In ty OPPORTUNITY_TYPES)
    (Hconf : assoc "confidence" items = Some (JInt conf))
    (Hwhy : assoc "reasoning" items = Some (JStr why)) :
  analyze_single_opportunity env o
  = (Return (id o, {| type := ty; confidence := conf; reasoning := why |}),
     [EvPost (build_prompt o)]).
Proof.
  unfold analyze_single_opportunity, try_except, bind, post, lift, ret.
  rewrite Hpost. unfold handle_response. rewrite Hstatus, Hcontent. simpl.
  assert (Ht : truthy (JStr s) = true).
  { unfold truthy. by apply negb_true_iff, String.eqb_neq. }
  rewrite Ht. simpl. rewrite Hloads. simpl. rewrite Htype.
  assert (Hok : in_opportunity_types (JStr ty) = true).
  { unfold in_opportunity_types. apply existsb_exists. exists ty.
    split; [done | apply String.eqb_refl]. }
  rewrite Hok. simpl. unfold construct_OpportunityAnalysis.
  by rewrite Htype, Hconf, Hwhy.
Qed.

Lemma service_answer_returned_witness :
  analyze_single_opportunity Samples.env_150 Samples.database
  = (Return ("006A3", {| type := "Cloud Security"; confidence := 150;
                         reasoning := "sure" |}),
     [EvPost (build_prompt Samples.database)]).
Proof.
  apply (service_answer_returned Samples.env_150 Samples.database
           {| status_code := 200; text := "";
              json_body := Return (Samples.completion
                                     (Samples.answer_text "Cloud Security" "150" "sure")) |}
           (Samples.answer_text "Cloud Security" "150" "sure")
           [("type", JStr "Cloud Security"); ("confidence", JInt 150);
            ("reasoning", JStr "sure")]);
    try reflexivity.
  - discriminate.
  - simpl. tauto.
Defined.

Lemma analysis_of_type env o : In (type (analysis_of env o)) OPPORTUNITY_TYPES.
Proof.
  unfold analysis_of, analyze_single_opportunity, try_except, bind, post, lift, ret.
  destruct (client_post env (build_prompt o)) as [e|r]; simpl;
    [apply fallback_result_shape |].
  destruct (handle_response env o r) as [e|[i a]] eqn:H; simpl;
    [apply fallback_result_shape |].
  apply handle_response_ok in H as (_ & _ & s & items & ty & c & _ & _ & _ & Hin & <- & _).
  done.
Qed.

(** X8: whatever the service does, the type of the result of
    [analyze_single_opportunity] is one of the twelve categories. *)
Theorem result_type_in_taxonomy (env : Env) (o : OpportunityForAnalysis) :
  exists a,
    analyze_single_opportunity env o = (Return (id o, a), [EvPost (build_prompt o)]) /\
    In (type a) OPPORTUNITY_TYPES.
Proof.
  exists (analysis_of env o). split; [apply single_run | apply analysis_of_type].
Qed.

(** ** More on the batch scheduler *)

(** The entry of an id after a run of insertions: the classification of
    the last item with that id, or what was there before. *)
Lemma results_lookup env l (m : gmap string OpportunityAnalysis) k :
  foldl (record_result env) m l !! k
  = match last (with_id k l) with
    | Some o => Some (analysis_of env o)
    | None => m !! k
    end.
Proof.
  revert m. induction l as [|o l IH]; intros m; [done |].
  cbn [foldl]. rewrite IH. unfold with_id. cbn [List.filter].
  fold (with_id k l). unfold record_result at 1.
  destruct (String.eqb_spec (id o) k) as [<-|Hne].
  - rewrite last_cons. destruct (last (with_id (id o) l)); [done |].
    apply lookup_insert_eq.
  - destruct (last (with_id k l)); [done |]. by apply lookup_insert_ne.
Qed.

Lemma with_id_elem k l o : last (with_id k l) = Some o -> o ∈ l /\ id o = k.
Proof.
  intros H. apply last_Some_elem_of, list_elem_of_In in H.
  unfold with_id in H. apply filter_In in H as [Hin Heq].
  split; [by apply list_elem_of_In | by apply String.eqb_eq].
Qed.

(** X9: for a non-empty batch, the results mapping sends each id to the
    classification of the last item of the batch that carries it, and has
    no entry for an id that no item carries. *)
Theorem results_by_last_item (env : Env) (now : string) (request : AnalysisRequest)
    (Hne : opportunities request <> []) :
  exists resp,
    fst (analyze_opportunities env now request) = Return resp /\
    forall k,
      results resp !! k
      = match last (with_id k (opportunities request)) with
        | Some o => Some (analysis_of env o)
        | None => None
        end.
Proof.
  rewrite analyze_opportunities_run by done. eexists. split; [done |].
  intros k. simpl. by rewrite results_lookup, lookup_empty.
Qed.

Lemma results_by_last_item_witness :
  exists resp,
    fst (analyze_opportunities Samples.env_timeout "2026-01-01T00:00:00"
           {| opportunities := [Samples.opp "7" "Firewall refresh" "" None;
                                Samples.opp "8" "Audit" "" None;
                                Samples.opp "7" "Phishing drill" "" None] |})
      = Return resp /\
    results resp !! "7"
      = Some {| type := "Security Training"; confidence := 75;
                reasoning := "Contains security training keywords" |} /\
    results resp !! "9" = None.
Proof.
  destruct (results_by_last_item Samples.env_timeout "2026-01-01T00:00:00"
              {| opportunities := [Samples.opp "7" "Firewall refresh" "" None;
                                   Samples.opp "8" "Audit" "" None;
                                   Samples.opp "7" "Phishing drill" "" None] |})
    as (resp & Hr & Hk); [discriminate |].
  exists resp. split; [exact Hr |]. split; rewrite Hk; reflexivity.
Defined.

(** X10: every classification in the results mapping of a response has a
    type of the taxonomy and is the classification of an item of the batch
    with that id. *)
Theorem results_values_in_taxonomy (env : Env) (now : string)
    (request : AnalysisRequest) (resp : AnalysisResponse)
    (k : string) (a : OpportunityAnalysis)
    (Hrun : fst (analyze_opportunities env now request) = Return resp)
    (Hk : results resp !! k = Some a) :
  In (type a) OPPORTUNITY_TYPES /\
  exists o, o ∈ opportunities request /\ id o = k /\
            fst (analyze_single_opportunity env o) = Return (k, a).
Proof.
  destruct (opportunities request) as [|o0 opps] eqn:E.
  { unfold analyze_opportunities in Hrun. by rewrite E in Hrun. }
  rewrite analyze_opportunities_run in Hrun by (by rewrite E).
  simpl in Hrun. injection Hrun as <-. simpl in Hk.
  rewrite results_lookup, lookup_empty, E in Hk.
  destruct (last (with_id k (o0 :: opps))) as [o|] eqn:Hl; [|done].
  injection Hk as <-. apply with_id_elem in Hl as [Hin <-].
  split; [apply analysis_of_type |].
  exists o. repeat split; try done. by rewrite single_run.
Qed.

Lemma results_values_in_taxonomy_witness :
  In "Security Assessment" OPPORTUNITY_TYPES /\
  exists o, o ∈ [Samples.cloud_review; Samples.associates] /\ id o = "006A1" /\
            fst (analyze_single_opportunity Samples.env_timeout o)
            = Return ("006A1", {| type := "Security Assessment"; confidence := 70;
                                  reasoning := "Contains assessment/audit keywords" |}).
Proof.
  apply (results_values_in_taxonomy Samples.env_timeout "2026-01-01T00:00:00"
           {| opportunities := [Samples.cloud_review; Samples.associates] |}
           {| results := foldl (record_result Samples.env_timeout) ∅
                           [Samples.cloud_review; Samples.associates];
              processed_count := 2; timestamp := "2026-01-01T00:00:00" |}
           "006A1"
           {| type := "Security Assessment"; confidence := 70;
              reasoning := "Contains assessment/audit keywords" |}).
  - vm_compute. reflexivity.
  - vm_compute. reflexivity.
Defined.

Lemma with_id_unique l o :
  NoDup (map id l) -> o ∈ l -> last (with_id (id o) l) = Some o.
Proof.
  induction l as [|x l IH]; intros Hnd Ho; [by apply elem_of_nil in Ho |].
  cbn [map] in Hnd. apply NoDup_cons in Hnd as [Hx Hnd].
  unfold with_id. cbn [List.filter]. fold (with_id (id o) l).
  apply elem_of_cons in Ho as [->|Ho].
  - rewrite String.eqb_refl, last_cons.
    destruct (last (with_id (id x) l)) as [y|] eqn:Hy; [|done].
    apply with_id_elem in Hy as [Hin Hid]. destruct Hx.
    rewrite <- Hid. by apply (list_elem_of_fmap_2 id).
  - destruct (String.eqb_spec (id x) (id o)) as [Heq|_]; [|by apply IH].
    destruct Hx. rewrite Heq. by apply (list_elem_of_fmap_2 id).
Qed.

(** X11: when the ids of a non-empty batch are pairwise distinct, no item
    is lost: [processed_count] is the number of items and every item's id
    is mapped to that item's own classification. *)
Theorem distinct_ids_all_counted (env : Env) (now : string) (request : AnalysisRequest)
    (Hne : opportunities request <> [])
    (Hnd : NoDup (map id (opportunities request))) :
  exists resp,
    fst (analyze_opportunities env now request) = Return resp /\
    processed_count resp = Z.of_nat (length (opportunities request)) /\
    forall o, o ∈ opportunities request ->
      results resp !! id o = Some (analysis_of env o).
Proof.
  rewrite analyze_opportunities_run by done. eexists. split; [done |]. simpl.
  split.
  - rewrite <- size_dom, results_dom, dom_empty_L, (left_id_L ∅ (∪)).
    by rewrite size_list_to_set, length_map.
  - intros o Ho. by rewrite results_lookup, with_id_unique.
Qed.

Lemma distinct_ids_all_counted_witness :
  exists resp,
    fst (analyze_opportunities Samples.env_150 "2026-01-01T00:00:00"
           {| opportunities := [Samples.cloud_review; Samples.associates;
                                Samples.database] |}) = Return resp /\
    processed_count resp = 3%Z /\
    forall o, o ∈ [Samples.cloud_review; Samples.associates; Samples.database] ->
      results resp !! id o = Some (analysis_of Samples.env_150 o).
Proof.
  apply (distinct_ids_all_counted Samples.env_150 "2026-01-01T00:00:00"
           {| opportunities := [Samples.cloud_review; Samples.associates;
                                Samples.database] |}).
  - discriminate.
  - refine (bool_decide_unpack _ _). vm_compute. exact I.
Defined.





(** X13: a batch of [n] items is handled in [n/5] groups, rounded up, and
    so with one pause fewer than that; a batch of at most five items is
    handled without any pause. *)
Theorem groups_and_pauses (env : Env) (now : string) (request : AnalysisRequest) :
  let n := length (opportunities request) in
  let trace := snd (analyze_opportunities env now request) in
  length (chunks (opportunities request)) = (n + 4) / 5 /\
  count_sleeps trace = (n + 4) / 5 - 1 /\
  (n <= 5 -> count_sleeps trace = 0).
Proof.
  intros n trace.
  assert (Hlen : length (chunks (opportunities request)) = (n + 4) / 5).
  { unfold chunks. by rewrite py_range_batches, !length_map, length_seq. }
  assert (Hc : count_sleeps trace = (n + 4) / 5 - 1).
  { unfold trace. by rewrite analyze_opportunities_trace, count_sleeps_paced, Hlen. }
  repeat split; try done.
  intros Hn. rewrite Hc.
  assert ((n + 4) / 5 <= 1); [|lia].
  apply Nat.lt_succ_r, Nat.Div0.div_lt_upper_bound; lia.
Qed.

(** X14: a complete outage of the service does not fail the batch: when
    every call raises, the response is still returned and every id is
    mapped to the fallback classification of the last item that carries
    it. *)
Theorem outage_gives_fallbacks (env : Env) (now : string) (request : AnalysisRequest)
    (Hne : opportunities request <> [])
    (Hdown : forall prompt, exists e, client_post env prompt = Raise e) :
  exists resp,
    fst (analyze_opportunities env now request) = Return resp /\
    processed_count resp = Z.of_nat (size (results resp)) /\
    forall k,
      results resp !! k
      = match last (with_id k (opportunities request)) with
        | Some o => Some (fallback_categorization (unicode env) o)
        | None => None
        end.
Proof.
  rewrite analyze_opportunities_run by done. eexists. split; [done |]. simpl.
  split; [done |]. intros k. rewrite results_lookup, lookup_empty.
  destruct (last (with_id k (opportunities request))) as [o|]; [|done].
  f_equal. apply analysis_of_raise. intros r Hr.
  destruct (Hdown (build_prompt o)) as [e He]. congruence.
Qed.

Lemma outage_gives_fallbacks_witness :
  exists resp,
    fst (analyze_opportunities Samples.env_timeout "2026-01-01T00:00:00"
           {| opportunities := [Samples.associates; Samples.database] |}) = Return resp /\
    results resp !! "006A2"
      = Some {| type := "SIEM/SOC"; confidence := 80;
                reasoning := "Contains SIEM/SOC keywords" |} /\
    results resp !! "006A3"
      = Some {| type := "Data Protection"; confidence := 75;
                reasoning := "Contains data protection keywords" |}.
Proof.
  destruct (outage_gives_fallbacks Samples.env_timeout "2026-01-01T00:00:00"
              {| opportunities := [Samples.associates; Samples.database] |})
    as (resp & Hr & _ & Hk).
  - discriminate.
  - intros prompt. by exists TimeoutException.
  - exists resp. split; [exact Hr |]. split; rewrite Hk; reflexivity.
Defined.

(** X15: lines 275-281 skip an outcome that is an exception and go on:
    the mapping is what it would be without that outcome, and no entry
    that was there before is lost. *)
Theorem collect_skips_exceptions (m : gmap string OpportunityAnalysis)
    (before after : list (except (string * OpportunityAnalysis))) (e : exn) :
  collect m (before ++ Raise e :: after) = collect m (before ++ after) /\
  dom m ⊆ dom (collect m (before ++ Raise e :: after)).
Proof.
  assert (Hdom : forall l (m' : gmap string OpportunityAnalysis),
             dom m' ⊆ dom (collect m' l)).
  { unfold collect. induction l as [|[e'|[k a]] l IH]; intros m'; simpl.
    - done.
    - apply IH.
    - etrans; [|apply IH]. rewrite dom_insert_L. apply union_subseteq_r. }
  split; [|apply Hdom].
  unfold collect. by rewrite !foldl_app.
Qed.

(** ** Configuration *)

Lemma split_on_nonempty sep s : split_on sep s <> [].
Proof.
  destruct s as [|c s]; simpl; [done |].
  destruct (Ascii.eqb c sep); [done |]. by destruct (split_on sep s).
Qed.

Lemma join_split_on sep s : join (String sep "") (split_on sep s) = s.
Proof.
  induction s as [|c s IH]; [done |].
  cbn [split_on]. pose proof (split_on_nonempty sep s) as Hne.
  destruct (Ascii.eqb_spec c sep) as [->|_].
  - destruct (split_on sep s) as [|p ps]; [done |].
    change (join (String sep "") ("" :: p :: ps))
      with (String sep (join (String sep "") (p :: ps))).
    by rewrite IH.
  - destruct (split_on sep s) as [|p ps]; [done |].
    destruct ps as [|p' ps]; simpl in *; by rewrite <- IH.
Qed.

Lemma split_on_pieces sep s :
  Forall (fun piece => str_in (String sep "") piece = false) (split_on sep s).
Proof.
  induction s as [|c s IH]; [by repeat constructor |].
  cbn [split_on]. destruct (Ascii.eqb_spec c sep) as [->|Hne].
  - by constructor.
  - destruct (split_on sep s) as [|p ps]; [|apply Forall_cons in IH as [Hp Hps]];
      constructor; try done; cbn [str_in startswith];
      destruct (Ascii.eqb_spec sep c) as [->|_]; done.
Qed.

(** X16: the list of allowed origins is the setting of the variable, or
    the default when it is unset, cut at its commas: it is never empty,
    no entry has a comma, and joining the entries with commas gives the
    setting back, so nothing is trimmed or dropped, not even an empty
    entry. *)
Theorem allowed_origins_round_trip (setting : option string) :
  allowed_origins setting <> [] /\
  join "," (allowed_origins setting) = getenv setting "http://localhost:5173" /\
  Forall (fun origin => ~ substring "," origin) (allowed_origins setting) /\
  (setting = None -> allowed_origins setting = ["http://localhost:5173"]).
Proof.
  unfold allowed_origins. split; [apply split_on_nonempty |].
  split; [apply join_split_on |]. split.
  - eapply Forall_impl; [apply split_on_pieces |].
    intros origin H. by apply str_in_false.
  - by intros ->.
Qed.

(** ** Composition of batches *)

Lemma results_union env l (m : gmap string OpportunityAnalysis) :
  foldl (record_result env) m l = foldl (record_result env) ∅ l ∪ m.
Proof.
  apply map_eq. intros k. rewrite results_lookup.
  destruct (last (with_id k l)) as [o|] eqn:Hl.
  - symmetry. apply lookup_union_Some_l. by rewrite results_lookup, Hl.
  - symmetry. apply lookup_union_r. by rewrite results_lookup, Hl, lookup_empty.
Qed.

(** X17: a batch can be sent in two requests: the results mapping of
    [first ++ second] is the mapping of [second] completed by that of
    [first], an id present in both taking the classification from
    [second]. *)
Theorem results_of_split_batch (env : Env) (now : string)
    (first second : list OpportunityForAnalysis)
    (Hfirst : first <> []) (Hsecond : second <> []) :
  exists r1 r2 r,
    fst (analyze_opportunities env now {| opportunities := first |}) = Return r1 /\
    fst (analyze_opportunities env now {| opportunities := second |}) = Return r2 /\
    fst (analyze_opportunities env now {| opportunities := (first ++ second)%list |})
      = Return r /\
    results r = results r2 ∪ results r1.
Proof.
  rewrite !analyze_opportunities_run; try done.
  - eexists _, _, _. repeat split. simpl.
    by rewrite foldl_app, results_union.
  - simpl. by destruct first.
Qed.

Lemma results_of_split_batch_witness :
  exists r1 r2 r,
    fst (analyze_opportunities Samples.env_timeout "2026-01-01T00:00:00"
           {| opportunities := [Samples.cloud_review] |}) = Return r1 /\
    fst (analyze_opportunities Samples.env_timeout "2026-01-01T00:00:00"
           {| opportunities := [Samples.associates] |}) = Return r2 /\
    fst (analyze_opportunities Samples.env_timeout "2026-01-01T00:00:00"
           {| opportunities := [Samples.cloud_review; Samples.associates] |})
      = Return r /\
    results r = results r2 ∪ results r1.
Proof.
  apply (results_of_split_batch Samples.env_timeout "2026-01-01T00:00:00"
           [Samples.cloud_review] [Samples.associates]); discriminate.
Defined.

(** X18: [processed_count] is the number of different ids in the batch. *)
Theorem processed_count_distinct_ids (env : Env) (now : string)
    (request : AnalysisRequest) (Hne : opportunities request <> []) :
  exists resp,
    fst (analyze_opportunities env now request) = Return resp /\
    processed_count resp
    = Z.of_nat (length (remove_dups (map id (opportunities request)))).
Proof.
  rewrite analyze_opportunities_run by done. eexists. split; [done |]. simpl.
  rewrite <- size_dom, results_dom, dom_empty_L, (left_id_L ∅ (∪)).
  f_equal. rewrite <- (size_list_to_set (C:=gset string) (remove_dups _))
    by apply NoDup_remove_dups.
  f_equal. apply set_eq. intros x.
  by rewrite !elem_of_list_to_set, elem_of_remove_dups.
Qed.

Lemma processed_count_distinct_ids_witness :
  exists resp,
    fst (analyze_opportunities Samples.env_timeout "2026-01-01T00:00:00"
           {| opportunities := [Samples.opp "7" "Firewall refresh" "" None;
                                Samples.opp "8" "Audit" "" None;
                                Samples.opp "7" "Phishing drill" "" None] |})
      = Return resp /\
    processed_count resp = 2%Z.
Proof.
  apply (processed_count_distinct_ids Samples.env_timeout "2026-01-01T00:00:00"
           {| opportunities := [Samples.opp "7" "Firewall refresh" "" None;
                                Samples.opp "8" "Audit" "" None;
                                Samples.opp "7" "Phishing drill" "" None] |}).
  discriminate.
Defined.
